(** * Purchase Order Extractor: the first-party logic of
      [anthropic_fix.py] and [test.py], embedded and verified.

    The repository has three pieces of logic of its own: the rasterizer
    loop of [pdf_to_images], the request payload built by
    [extract_data_with_direct_client] and [create_message], and the
    scraping of a JSON substring out of the model's reply.  PyMuPDF, PIL,
    httpx and base64 are collaborators of the program; they enter the
    development as the fields of the record [World], over which every
    statement is quantified, together with the room that the
    interpreter's stack leaves to [json.loads].  The handler of the page in [test.py], which
    calls the extraction and shows its result, is embedded as well, with
    the framework's and pandas' calls as the fields of [Ui]. *)

From Stdlib Require Import String Ascii DecimalString.
From Stdlib Require Import List ZArith NArith Lia Bool.
Import ListNotations.

Set Implicit Arguments.

(* ===================================================================== *)
(** ** Python [str]: a sequence of code points *)
(* ===================================================================== *)

Module PyStr.

Definition char := N.
Definition str := list char.

(** A literal of the source, written as a Rocq string of ASCII characters. *)
Definition lit (s : string) : str := List.map N_of_ascii (list_ascii_of_string s).

(** [a == b] on two [str]. *)
Fixpoint str_eqb (a b : str) : bool :=
  match a, b with
  | [], [] => true
  | c :: a', d :: b' => N.eqb c d && str_eqb a' b'
  | _, _ => false
  end.

(** [s.startswith(sep)]. *)
Fixpoint startswith (s sep : str) {struct sep} : bool :=
  match sep, s with
  | [], _ => true
  | _ :: _, [] => false
  | c :: sep', d :: s' => N.eqb c d && startswith s' sep'
  end.

(** [sep in s]: some suffix of [s] starts with [sep]. *)
Fixpoint contains (sep s : str) : bool :=
  startswith s sep ||
  match s with
  | [] => false
  | _ :: s' => contains sep s'
  end.

(** The leftmost occurrence of [sep] in [s]: what stands before it and
    what stands after it ([s.partition(sep)] when there is one). *)
Fixpoint partition (s sep : str) : option (str * str) :=
  if startswith s sep then Some ([], skipn (length sep) s)
  else match s with
       | [] => None
       | c :: s' =>
           match partition s' sep with
           | Some (b, a) => Some (c :: b, a)
           | None => None
           end
       end.

(** [s.split(sep)] for a non-empty [sep]: cut at the leftmost occurrence,
    go on in what follows it.  Every cut removes at least one character,
    so [S (length s)] rounds are never used up (see [split_fuel_enough]). *)
Fixpoint split_fuel (fuel : nat) (s sep : str) : list str :=
  match fuel with
  | O => [s]
  | S f =>
      match partition s sep with
      | None => [s]
      | Some (b, a) => b :: split_fuel f a sep
      end
  end.

Definition split_nonempty (s sep : str) : list str :=
  split_fuel (S (length s)) s sep.

(** [str.isspace] for one character (CPython's [_PyUnicode_IsWhitespace]). *)
Definition isspace (c : char) : bool :=
  ((9 <=? c) && (c <=? 13) || (28 <=? c) && (c <=? 32) ||
   (c =? 133) || (c =? 160) || (c =? 5760) ||
   (8192 <=? c) && (c <=? 8202) || (c =? 8232) || (c =? 8233) ||
   (c =? 8239) || (c =? 8287) || (c =? 12288))%N.

Fixpoint lstrip (s : str) : str :=
  match s with
  | c :: s' => if isspace c then lstrip s' else s
  | [] => []
  end.

Definition rstrip (s : str) : str := rev (lstrip (rev s)).

(** [s.strip()]. *)
Definition strip (s : str) : str := rstrip (lstrip s).

(** [str(n)] for an [int]. *)
Definition str_of_int (n : Z) : str := lit (NilZero.string_of_int (Z.to_int n)).

End PyStr.
Import PyStr.


(* ===================================================================== *)
(** ** Exceptions *)
(* ===================================================================== *)

(** A computation either returns or raises an [Exception]; what is kept of
    the exception is [str(e)], the only thing the program ever reads of
    one.  The texts of the interpreter's and the libraries' own exceptions
    are those of CPython 3.11. *)
Inductive exc (A : Type) : Type :=
| Ok (a : A)
| Raise (e : str).
Arguments Ok {A} a.
Arguments Raise {A} e.

Definition bind {A B : Type} (c : exc A) (k : A -> exc B) : exc B :=
  match c with
  | Ok a => k a
  | Raise e => Raise e
  end.

Notation "x <- c ;; k" := (bind c (fun x => k))
  (at level 61, c at next level, right associativity).

(** [try: c  except Exception as e: h e]. *)
Definition try_except {A : Type} (c : exc A) (h : str -> exc A) : exc A :=
  match c with
  | Ok a => Ok a
  | Raise e => h e
  end.

(* ===================================================================== *)
(** ** Python values that JSON produces *)
(* ===================================================================== *)

(** What [json.loads] and [response.json()] return, and what the request
    payload is made of.  A [dict] keeps its keys in insertion order.  A
    [float] is kept as the text of its literal. *)
#[warnings="-register-all"] Inductive json : Type :=
| JNull
| JBool (b : bool)
| JInt (n : Z)
| JFloat (lexeme : str)
| JStr (s : str)
| JList (items : list json)
| JDict (members : list (str * json)).

Definition type_name (v : json) : str :=
  match v with
  | JNull => lit "NoneType"
  | JBool _ => lit "bool"
  | JInt _ => lit "int"
  | JFloat _ => lit "float"
  | JStr _ => lit "str"
  | JList _ => lit "list"
  | JDict _ => lit "dict"
  end.

(** [v == s] for a [str] literal [s]. *)
Definition eq_str (v : json) (s : str) : bool :=
  match v with
  | JStr t => str_eqb t s
  | _ => false
  end.

Fixpoint dict_get (members : list (str * json)) (key : str) : option json :=
  match members with
  | [] => None
  | (k, v) :: rest => if str_eqb k key then Some v else dict_get rest key
  end.

(** [d[key] = v] on a [dict]: a key already there keeps its place. *)
Fixpoint dict_set (members : list (str * json)) (key : str) (v : json)
  : list (str * json) :=
  match members with
  | [] => [(key, v)]
  | (k, w) :: rest =>
      if str_eqb k key then (k, v) :: rest else (k, w) :: dict_set rest key v
  end.

(** [needle in v] for a [str] needle. *)
Definition py_in (needle : str) (v : json) : exc bool :=
  match v with
  | JDict members =>
      Ok (match dict_get members needle with Some _ => true | None => false end)
  | JList items => Ok (existsb (fun x => eq_str x needle) items)
  | JStr s => Ok (contains needle s)
  | _ => Raise (lit "argument of type '" ++ type_name v ++ lit "' is not iterable")
  end.

(** [len(v)]. *)
Definition py_len (v : json) : exc Z :=
  match v with
  | JDict members => Ok (Z.of_nat (length members))
  | JList items => Ok (Z.of_nat (length items))
  | JStr s => Ok (Z.of_nat (length s))
  | _ => Raise (lit "object of type '" ++ type_name v ++ lit "' has no len()")
  end.

(** [xs[i]] on a Python list, negative indices counting from the end. *)
Definition list_index {A : Type} (xs : list A) (i : Z) (what : str) : exc A :=
  let n := Z.of_nat (length xs) in
  let j := if (i <? 0)%Z then (i + n)%Z else i in
  if (j <? 0)%Z then Raise (what ++ lit " index out of range")
  else match nth_error xs (Z.to_nat j) with
       | Some x => Ok x
       | None => Raise (what ++ lit " index out of range")
       end.

(** [v[key]] for a [str] key. *)
Definition py_getitem_str (v : json) (key : str) : exc json :=
  match v with
  | JDict members =>
      match dict_get members key with
      | Some x => Ok x
      | None => Raise (lit "'" ++ key ++ lit "'")
      end
  | JList _ => Raise (lit "list indices must be integers or slices, not str")
  | JStr _ => Raise (lit "string indices must be integers, not 'str'")
  | _ => Raise (lit "'" ++ type_name v ++ lit "' object is not subscriptable")
  end.

(** [v[i]] for an [int] index; the keys of a JSON object are strings, so
    on a [dict] the lookup of an [int] is a [KeyError]. *)
Definition py_getitem_int (v : json) (i : Z) : exc json :=
  match v with
  | JDict _ => Raise (str_of_int i)
  | JList items => list_index items i (lit "list")
  | JStr s => c <- list_index s i (lit "string") ;; Ok (JStr [c])
  | _ => Raise (lit "'" ++ type_name v ++ lit "' object is not subscriptable")
  end.

Definition no_attribute (v : json) (name : str) : str :=
  lit "'" ++ type_name v ++ lit "' object has no attribute '" ++ name ++ lit "'".

(** [v.split(sep)]: a method of [str] only; an empty separator is refused. *)
Definition py_split (v : json) (sep : str) : exc (list str) :=
  match v with
  | JStr s =>
      match sep with
      | [] => Raise (lit "empty separator")
      | _ :: _ => Ok (split_nonempty s sep)
      end
  | _ => Raise (no_attribute v (lit "split"))
  end.

(** [v.strip()]. *)
Definition py_strip (v : json) : exc str :=
  match v with
  | JStr s => Ok (strip s)
  | _ => Raise (no_attribute v (lit "strip"))
  end.

(* ===================================================================== *)
(** ** [json.loads] *)
(* ===================================================================== *)

(** The decoder of Python's standard library, after [json/__init__.py],
    [json/decoder.py] and the scanner of [Modules/_json.c] that
    CPython 3.11 runs: the JSON grammar plus [NaN], [Infinity] and
    [-Infinity], the texts of [JSONDecodeError] with line, column and
    character, the limit on the digits of an [int], and the
    [RecursionError] of a nesting deeper than the interpreter has room
    for, or of an error raised where it has no room left to build the
    exception. *)
Module Json.

Open Scope N_scope.

Definition is_ws (c : char) : bool :=
  (c =? 32) || (c =? 9) || (c =? 10) || (c =? 13).

Fixpoint skip_ws (s : str) : str :=
  match s with
  | c :: s' => if is_ws c then skip_ws s' else s
  | [] => []
  end.

Definition is_digit (c : char) : bool := (48 <=? c) && (c <=? 57).

Fixpoint span_digits (s : str) : str * str :=
  match s with
  | c :: s' =>
      if is_digit c then let (ds, rest) := span_digits s' in (c :: ds, rest)
      else ([], s)
  | [] => ([], [])
  end.

Definition int_of_digits (ds : str) : Z :=
  fold_left (fun acc c => (10 * acc + Z.of_N (c - 48))%Z) ds 0%Z.

Definition hex_digit (c : char) : option N :=
  if is_digit c then Some (c - 48)
  else if (97 <=? c) && (c <=? 102) then Some (c - 87)
  else if (65 <=? c) && (c <=? 70) then Some (c - 55)
  else None.

Definition hex4 (a b c d : char) : option N :=
  match hex_digit a, hex_digit b, hex_digit c, hex_digit d with
  | Some x, Some y, Some z, Some w => Some (((x * 16 + y) * 16 + z) * 16 + w)
  | _, _, _, _ => None
  end.

(** The one-character escapes: quote, backslash, slash, b, f, n, r, t. *)
Definition unescape (c : char) : option char :=
  if c =? 34 then Some 34
  else if c =? 92 then Some 92
  else if c =? 47 then Some 47
  else if c =? 98 then Some 8
  else if c =? 102 then Some 12
  else if c =? 110 then Some 10
  else if c =? 114 then Some 13
  else if c =? 116 then Some 9
  else None.

Definition is_high_surrogate (u : N) : bool := (55296 <=? u) && (u <=? 56319).
Definition is_low_surrogate (u : N) : bool := (56320 <=? u) && (u <=? 57343).

Definition calling_error : str :=
  lit "maximum recursion depth exceeded while calling a Python object".

Definition frame_error : str := lit "maximum recursion depth exceeded".

(** The length of the last line of [s]. *)
Definition last_line_length (s : str) : nat :=
  fold_left (fun n c => if c =? 10 then O else S n) s O.

(** [str(JSONDecodeError(msg, doc, pos))], the position being where
    [rest] begins in [doc]. *)
Definition errmsg (doc msg rest : str) : str :=
  let pos := (length doc - length rest)%nat in
  let seen := firstn pos doc in
  msg ++ lit ": line "
      ++ str_of_int (Z.of_nat (S (count_occ N.eq_dec seen 10)))
      ++ lit " column " ++ str_of_int (Z.of_nat (S (last_line_length seen)))
      ++ lit " (char " ++ str_of_int (Z.of_nat pos) ++ lit ")".

(** [raise JSONDecodeError(msg, doc, pos)] where the interpreter has room
    for [room] calls, one inside the other: the call of the class takes
    one, its [__init__] a second, and the [__init__] of [ValueError]
    that it calls a third. *)
Definition decode_error {A : Type} (room : nat) (doc msg rest : str) : exc A :=
  match room with
  | O => Raise calling_error
  | S O => Raise frame_error
  | S (S O) => Raise calling_error
  | _ => Raise (errmsg doc msg rest)
  end.

(** [scanstring] past the opening quote: the decoded text and what
    follows the closing quote.  [start] is the text from the opening
    quote on.  An escape of four hexadecimal digits must be followed by
    a character, and the second half of a surrogate pair by a character
    as well.  [room] is the room of the interpreter where the string
    stands. *)
Fixpoint scan_string (room : nat) (doc start : str) (s : str) (acc : str)
    {struct s}
  : exc (str * str) :=
  match s with
  | [] => decode_error room doc (lit "Unterminated string starting at") start
  | c :: s1 =>
      if c =? 34 then Ok (rev acc, s1)
      else if c =? 92 then
        match s1 with
        | [] => decode_error room doc (lit "Unterminated string starting at") start
        | e :: s2 =>
            if e =? 117 then
              match s2 with
              | h1 :: h2 :: h3 :: h4 :: (_ :: _) as s3 =>
                  match hex4 h1 h2 h3 h4 with
                  | None =>
                      decode_error room doc (lit "Invalid \uXXXX escape") s1
                  | Some u =>
                      match s3 with
                      | b :: ((u' :: k1 :: k2 :: k3 :: k4 :: (_ :: _) as s4) as t3) =>
                          if is_high_surrogate u && (b =? 92) && (u' =? 117) then
                            match hex4 k1 k2 k3 k4 with
                            | None =>
                                decode_error room doc
                                  (lit "Invalid \uXXXX escape") t3
                            | Some v =>
                                if is_low_surrogate v then
                                  scan_string room doc start s4
                                    (65536 + ((u - 55296) * 1024 + (v - 56320))
                                       :: acc)
                                else scan_string room doc start s3 (u :: acc)
                            end
                          else scan_string room doc start s3 (u :: acc)
                      | _ => scan_string room doc start s3 (u :: acc)
                      end
                  end
              | _ => decode_error room doc (lit "Invalid \uXXXX escape") s1
              end
            else
              match unescape e with
              | Some d => scan_string room doc start s2 (d :: acc)
              | None => decode_error room doc (lit "Invalid \escape") s
              end
        end
      else if c <=? 31 then
        decode_error room doc (lit "Invalid control character at") s
      else scan_string room doc start s1 (c :: acc)
  end.

(** The number pattern of the scanner: an optional minus sign, then a
    zero or a digit string without leading zero; then, optionally, a dot
    with digits; then, optionally, an exponent.  An [int] when there is
    neither fraction nor exponent, a [float] otherwise. *)
Definition scan_int_part (s : str) : option (str * str) :=
  match s with
  | c :: s' =>
      if c =? 48 then Some ([c], s')
      else if is_digit c then let (ds, rest) := span_digits s' in Some (c :: ds, rest)
      else None
  | [] => None
  end.

Definition scan_frac (s : str) : str * str :=
  match s with
  | c :: s' =>
      if c =? 46 then
        match span_digits s' with
        | ([], _) => ([], s)
        | (ds, rest) => (c :: ds, rest)
        end
      else ([], s)
  | [] => ([], [])
  end.

Definition scan_exp (s : str) : str * str :=
  match s with
  | c :: s' =>
      if (c =? 101) || (c =? 69) then
        let (sign, s'') :=
          match s' with
          | d :: t => if (d =? 45) || (d =? 43) then ([d], t) else ([], s')
          | [] => ([], [])
          end in
        match span_digits s'' with
        | ([], _) => ([], s)
        | (ds, rest) => (c :: sign ++ ds, rest)
        end
      else ([], s)
  | [] => ([], [])
  end.

(** The most digits that [int] takes from a string
    ([sys.int_info.default_max_str_digits]). *)
Definition max_str_digits : nat := 4300.

(** The text of the [ValueError] of a longer [int]. *)
Definition too_many_digits (digits : nat) : str :=
  lit "Exceeds the limit (4300 digits) for integer string conversion: value has "
    ++ str_of_int (Z.of_nat digits)
    ++ lit " digits; use sys.set_int_max_str_digits() to increase the limit".

(** What the scanner makes of the text at one place: nothing, a value
    and what follows it, or an exception without a position. *)
Inductive scanned : Type :=
| NoValue
| Value (v : json) (rest : str)
| Failure (e : str).

Definition scan_number (s : str) : scanned :=
  let (sign, s1) :=
    match s with
    | c :: s' => if c =? 45 then ([c], s') else ([], s)
    | [] => ([], [])
    end in
  match scan_int_part s1 with
  | None => NoValue
  | Some (ip, s2) =>
      let (fr, s3) := scan_frac s2 in
      let (ex, s4) := scan_exp s3 in
      match fr, ex with
      | [], [] =>
          if Nat.ltb max_str_digits (length ip)
          then Failure (too_many_digits (length ip))
          else Value (JInt (match sign with
                            | [] => int_of_digits ip
                            | _ => Z.opp (int_of_digits ip)
                            end)) s4
      | _, _ => Value (JFloat (sign ++ ip ++ fr ++ ex)) s4
      end
  end.

(** [s[idx:idx+len(word)] == word], and what follows the word. *)
Definition keyword (word : str) (s : str) : option str :=
  if startswith s word then Some (skipn (length word) s) else None.

(** [parse_constant(name)], a call for which the interpreter needs room
    for one. *)
Definition parse_constant (room : nat) (name rest : str) : scanned :=
  match room with
  | O => Failure calling_error
  | S _ => Value (JFloat name) rest
  end.

Definition scan_constant (room : nat) (s : str) : scanned :=
  match keyword (lit "null") s with
  | Some r => Value JNull r
  | None =>
  match keyword (lit "true") s with
  | Some r => Value (JBool true) r
  | None =>
  match keyword (lit "false") s with
  | Some r => Value (JBool false) r
  | None =>
  match keyword (lit "NaN") s with
  | Some r => parse_constant room (lit "NaN") r
  | None =>
  match keyword (lit "Infinity") s with
  | Some r => parse_constant room (lit "Infinity") r
  | None =>
  match keyword (lit "-Infinity") s with
  | Some r => parse_constant room (lit "-Infinity") r
  | None => scan_number s
  end end end end end end.

Definition object_depth_error : str :=
  lit "maximum recursion depth exceeded while decoding a JSON object from a unicode string".

Definition array_depth_error : str :=
  lit "maximum recursion depth exceeded while decoding a JSON array from a unicode string".

(** The text raised when the scanner is out of fuel, which it never is
    ([loads_fuel_enough]). *)
Definition out_of_fuel : str := lit "out of fuel".

(** [scan_once], [_parse_array] and [_parse_object].  [depth] is the
    number of arrays and objects that the interpreter can still enter,
    one inside the other, and [top] that number where the scanner was
    called: the scanner reports a missing value there, by a
    [StopIteration] for which [raw_decode], one call further out, raises
    the error.  One unit of [fuel] is spent per call; [loads] starts
    with twice the length of the text and two. *)
Fixpoint scan_once (fuel top depth : nat) (doc s : str) {struct fuel}
  : exc (json * str) :=
  match fuel with
  | O => Raise out_of_fuel
  | S f =>
      match s with
      | [] => decode_error (S top) doc (lit "Expecting value") s
      | c :: s1 =>
          if c =? 34 then
            r <- scan_string depth doc s s1 [] ;; Ok (JStr (fst r), snd r)
          else if c =? 123 then
            match depth with
            | O => Raise object_depth_error
            | S d =>
                match skip_ws s1 with
                | q :: s2 =>
                    if q =? 125 then Ok (JDict [], s2)
                    else scan_members f top d doc (q :: s2) []
                | [] => scan_members f top d doc [] []
                end
            end
          else if c =? 91 then
            match depth with
            | O => Raise array_depth_error
            | S d =>
                match skip_ws s1 with
                | q :: s2 =>
                    if q =? 93 then Ok (JList [], s2)
                    else scan_items f top d doc (q :: s2) []
                | [] => scan_items f top d doc [] []
                end
            end
          else
            match scan_constant depth s with
            | Value v rest => Ok (v, rest)
            | Failure e => Raise e
            | NoValue => decode_error (S top) doc (lit "Expecting value") s
            end
      end
  end

with scan_items (fuel top depth : nat) (doc s : str) (acc : list json)
    {struct fuel} : exc (json * str) :=
  match fuel with
  | O => Raise out_of_fuel
  | S f =>
      r <- scan_once f top depth doc s ;;
      let acc' := acc ++ [fst r] in
      match skip_ws (snd r) with
      | c :: s1 =>
          if c =? 93 then Ok (JList acc', s1)
          else if c =? 44 then scan_items f top depth doc (skip_ws s1) acc'
          else decode_error depth doc (lit "Expecting ',' delimiter") (c :: s1)
      | [] => decode_error depth doc (lit "Expecting ',' delimiter") []
      end
  end

with scan_members (fuel top depth : nat) (doc s : str)
    (acc : list (str * json)) {struct fuel} : exc (json * str) :=
  match fuel with
  | O => Raise out_of_fuel
  | S f =>
      match s with
      | q :: s1 =>
          if q =? 34 then
            k <- scan_string depth doc s s1 [] ;;
            match skip_ws (snd k) with
            | c :: s2 =>
                if c =? 58 then
                  r <- scan_once f top depth doc (skip_ws s2) ;;
                  let acc' := dict_set acc (fst k) (fst r) in
                  match skip_ws (snd r) with
                  | d :: s3 =>
                      if d =? 125 then Ok (JDict acc', s3)
                      else if d =? 44 then
                        scan_members f top depth doc (skip_ws s3) acc'
                      else
                        decode_error depth doc (lit "Expecting ',' delimiter")
                                     (d :: s3)
                  | [] =>
                      decode_error depth doc (lit "Expecting ',' delimiter") []
                  end
                else
                  decode_error depth doc (lit "Expecting ':' delimiter")
                               (c :: s2)
            | [] => decode_error depth doc (lit "Expecting ':' delimiter") []
            end
          else
            decode_error depth doc
              (lit "Expecting property name enclosed in double quotes") s
      | [] =>
          decode_error depth doc
            (lit "Expecting property name enclosed in double quotes") []
      end
  end.

(** [json.loads(s)] for a [str], where the interpreter has room for the
    calls down to the scanner and, from there, for [depth] more, one
    inside the other: no byte order mark, then one value between
    optional white space, and nothing after it.  The scanner is called
    by [raw_decode], that by [decode], that by [loads]. *)
Definition loads (depth : nat) (s : str) : exc json :=
  match s with
  | 65279 :: _ =>
      decode_error (S (S (S depth))) s
        (lit "Unexpected UTF-8 BOM (decode using utf-8-sig)") s
  | _ =>
      r <- scan_once (2 * length s + 2) depth depth s (skip_ws s) ;;
      match skip_ws (snd r) with
      | [] => Ok (fst r)
      | rest => decode_error (S (S depth)) s (lit "Extra data") rest
      end
  end.

Close Scope N_scope.

End Json.

(* ===================================================================== *)
(** ** The collaborators *)
(* ===================================================================== *)

Definition bytes := list N.

(** An open [fitz] document: [len(doc)] and [doc.load_page(n)]. *)
Record Document (Page : Type) : Type := {
  page_count : nat;
  load_page : Z -> exc Page
}.

(** An [httpx.Response]: [response.status_code], [response.text] and
    what [response.json()] returns or raises, which [httpx] makes of the
    bytes of the body. *)
Record Response : Type := {
  status_code : Z;
  text : str;
  response_json : exc json
}.

(** What the program calls and does not define.
    - [b64decode]: [base64.b64decode];
    - [fitz_open]: [fitz.open(stream=..., filetype="pdf")];
    - [render_png]: a page to the base64 text of its PNG at zoom 2
      ([get_pixmap], [Image.frombytes], [img.save], [base64.b64encode]);
    - [http_post]: [client.post(url, headers=..., json=...)] on a client
      with a timeout of 120 seconds;
    - [headroom]: the number of arrays and objects, one inside the other,
      that the interpreter has room to enter where
      [extract_data_with_direct_client] calls [json.loads] (what its
      recursion limit leaves). *)
Record World : Type := {
  Page : Type;
  b64decode : str -> exc bytes;
  fitz_open : bytes -> exc (Document Page);
  render_png : Page -> exc str;
  http_post : str -> list (str * str) -> json -> exc Response;
  headroom : nat
}.

(* ===================================================================== *)
(** ** [base64] *)
(* ===================================================================== *)

(** The two functions of Python's standard library that carry the
    document from the page to the rasterizer: [base64.b64encode] and
    [base64.b64decode] with its default [validate=False], after
    [binascii.c].  A byte is a number below 256. *)
Module Base64.

Open Scope N_scope.

(** The character of a six-bit value. *)
Definition b64_char (v : N) : char :=
  if v <? 26 then 65 + v
  else if v <? 52 then 97 + (v - 26)
  else if v <? 62 then 48 + (v - 52)
  else if v =? 62 then 43
  else 47.

(** The six-bit value of a character of the alphabet. *)
Definition b64_value (c : char) : option N :=
  if (65 <=? c) && (c <=? 90) then Some (c - 65)
  else if (97 <=? c) && (c <=? 122) then Some (c - 97 + 26)
  else if (48 <=? c) && (c <=? 57) then Some (c - 48 + 52)
  else if c =? 43 then Some 62
  else if c =? 47 then Some 63
  else None.

(** [base64.b64encode(data).decode()]. *)
Fixpoint b64encode (data : bytes) : str :=
  match data with
  | [] => []
  | [a] => [b64_char (a / 4); b64_char (a mod 4 * 16); 61; 61]
  | [a; b] =>
      [b64_char (a / 4); b64_char (a mod 4 * 16 + b / 16);
       b64_char (b mod 16 * 4); 61]
  | a :: b :: c :: rest =>
      b64_char (a / 4) :: b64_char (a mod 4 * 16 + b / 16)
        :: b64_char (b mod 16 * 4 + c / 64) :: b64_char (c mod 64)
        :: b64encode rest
  end.

(** The loop of [binascii.a2b_base64] in its lenient mode: characters
    outside the alphabet are skipped, a complete run of padding ends the
    decoding, and what was read must not stop inside a quad. *)
Fixpoint a2b_base64 (s : str) (quad_pos : nat) (leftchar : N) (pads : nat)
    (out : bytes) : exc bytes :=
  match s with
  | [] =>
      match quad_pos with
      | O => Ok out
      | S O =>
          Raise (lit "Invalid base64-encoded string: number of data characters ("
                   ++ str_of_int (Z.of_nat (length out / 3 * 4 + 1))
                   ++ lit ") cannot be 1 more than a multiple of 4")
      | _ => Raise (lit "Incorrect padding")
      end
  | c :: s' =>
      if c =? 61 then
        if Nat.leb 2 quad_pos then
          if Nat.leb 4 (quad_pos + S pads) then Ok out
          else a2b_base64 s' quad_pos leftchar (S pads) out
        else a2b_base64 s' quad_pos leftchar pads out
      else
        match b64_value c with
        | None => a2b_base64 s' quad_pos leftchar pads out
        | Some v =>
            match quad_pos with
            | O => a2b_base64 s' 1 v 0 out
            | S O =>
                a2b_base64 s' 2 (v mod 16) 0 (out ++ [leftchar * 4 + v / 16])
            | S (S O) =>
                a2b_base64 s' 3 (v mod 4) 0 (out ++ [leftchar * 16 + v / 4])
            | _ => a2b_base64 s' 0 0 0 (out ++ [leftchar * 64 + v])
            end
        end
  end.

(** [base64.b64decode(s)] for a [str]: ASCII only. *)
Definition b64decode (s : str) : exc bytes :=
  if forallb (fun c => c <? 128) s then a2b_base64 s 0 0 0 []
  else Raise (lit "string argument should contain only ASCII characters").

Close Scope N_scope.

End Base64.

(* ===================================================================== *)
(** ** anthropic_fix.py *)
(* ===================================================================== *)

Record AnthropicDirectClient : Type := {
  api_key : str;
  base_url : str;
  headers : list (str * str)
}.

(** [AnthropicDirectClient.__init__]. *)
Definition new_client (key : str) : AnthropicDirectClient := {|
  api_key := key;
  base_url := lit "https://api.anthropic.com/v1";
  headers := [ (lit "x-api-key", key);
               (lit "anthropic-version", lit "2023-06-01");
               (lit "content-type", lit "application/json") ]
|}.

Definition default_model : str := lit "claude-3-7-sonnet-20250219".
Definition default_max_tokens : Z := 4000.
Definition default_temperature : Z := 0.

(** The [payload] of [create_message]. *)
Definition message_payload (system : str) (messages : json)
    (model : str) (max_tokens temperature : Z) : json :=
  JDict [ (lit "model", JStr model);
          (lit "system", JStr system);
          (lit "messages", messages);
          (lit "max_tokens", JInt max_tokens);
          (lit "temperature", JInt temperature) ].

(** The guard of [create_message]: [if response.status_code != 200:] and
    its [raise]. *)
Definition check_status (response : Response) : exc unit :=
  if negb (status_code response =? 200)%Z then
    Raise (lit "API request failed with status "
             ++ str_of_int (status_code response) ++ lit ": " ++ text response)
  else Ok tt.

(** [AnthropicDirectClient.create_message]. *)
Definition create_message (w : World) (self : AnthropicDirectClient)
    (system : str) (messages : json)
    (model : str) (max_tokens temperature : Z) : exc json :=
  let url := base_url self ++ lit "/messages" in
  let payload := message_payload system messages model max_tokens temperature in
  response <- http_post w url (headers self) payload ;;
  _ <- check_status response ;;
  response_json response.

(** [range(n)]. *)
Definition py_range (n : Z) : list Z := map Z.of_nat (seq 0 (Z.to_nat n)).

(** The body of the [for] loop of [pdf_to_images], run over the page
    numbers left; beside the result, the page numbers handed to
    [load_page] so far. *)
Fixpoint render_loop (w : World) (doc : Document (Page w)) (nums : list Z)
    (images : list str) (loaded : list Z) : exc (list str) * list Z :=
  match nums with
  | [] => (Ok images, loaded)
  | page_num :: rest =>
      match load_page doc page_num with
      | Raise e => (Raise e, loaded ++ [page_num])
      | Ok page =>
          match render_png w page with
          | Raise e => (Raise e, loaded ++ [page_num])
          | Ok base64_encoded =>
              render_loop w doc rest (images ++ [base64_encoded])
                          (loaded ++ [page_num])
          end
      end
  end.

(** [pdf_to_images], with the trace of the pages loaded.  The decoding of
    the base64 text stands before the [try]. *)
Definition pdf_to_images_run (w : World) (pdf_data : str) (max_pages : Z)
  : exc (list str) * list Z :=
  match b64decode w pdf_data with
  | Raise e => (Raise e, [])
  | Ok pdf_stream =>
      let r :=
        match fitz_open w pdf_stream with
        | Raise e => (Raise e, [])
        | Ok doc =>
            render_loop w doc
              (py_range (Z.min (Z.of_nat (page_count doc)) max_pages)) [] []
        end in
      (try_except (fst r)
         (fun e => Raise (lit "Error converting PDF to images: " ++ e)),
       snd r)
  end.

Definition pdf_to_images (w : World) (pdf_data : str) (max_pages : Z)
  : exc (list str) :=
  fst (pdf_to_images_run w pdf_data max_pages).

Definition pages_loaded (w : World) (pdf_data : str) (max_pages : Z) : list Z :=
  snd (pdf_to_images_run w pdf_data max_pages).

Definition default_max_pages : Z := 10.

(** The content block of one page image. *)
Definition image_block (img_base64 : str) : json :=
  JDict [ (lit "type", JStr (lit "image"));
          (lit "source",
           JDict [ (lit "type", JStr (lit "base64"));
                   (lit "media_type", JStr (lit "image/png"));
                   (lit "data", JStr img_base64) ]) ].

Definition directive : str :=
  lit "Extract the purchase order information as specified in your instructions. This is a PDF document converted to images.".

Definition text_block : json :=
  JDict [ (lit "type", JStr (lit "text")); (lit "text", JStr directive) ].

(** The [content] list: one [append] per image, then the text prompt. *)
Definition build_content (pdf_images : list str) : list json :=
  fold_left (fun content img_base64 => content ++ [image_block img_base64])
            pdf_images []
  ++ [text_block].

Definition user_messages (content : list json) : json :=
  JList [ JDict [ (lit "role", JStr (lit "user"));
                  (lit "content", JList content) ] ].

(** The payload that [extract_data_with_direct_client] has posted. *)
Definition request_payload (prompt : str) (pdf_images : list str) : json :=
  message_payload prompt (user_messages (build_content pdf_images))
                  default_model default_max_tokens default_temperature.

Definition fence : str := lit "```".
Definition fence_json : str := lit "```json".

(** The text handed to [json.loads], from [response_text]. *)
Definition select_json_str (response_text : json) : exc str :=
  has_json <- py_in fence_json response_text ;;
  if has_json : bool then
    parts <- py_split response_text fence_json ;;
    inner <- list_index parts 1 (lit "list") ;;
    pieces <- py_split (JStr inner) fence ;;
    piece <- list_index pieces 0 (lit "list") ;;
    Ok (strip piece)
  else
    has_fence <- py_in fence response_text ;;
    if has_fence : bool then
      parts <- py_split response_text fence ;;
      inner <- list_index parts 1 (lit "list") ;;
      pieces <- py_split (JStr inner) fence ;;
      piece <- list_index pieces 0 (lit "list") ;;
      Ok (strip piece)
    else py_strip response_text.

(** "Process the response": the result pair, [None] being [JNull] in its
    first component.  [depth] is the room that the interpreter has for
    [json.loads]. *)
Definition process_response (depth : nat) (response : json)
  : exc (json * option str) :=
  has_content <- py_in (lit "content") response ;;
  nonempty <- (if has_content : bool then
                 content <- py_getitem_str response (lit "content") ;;
                 n <- py_len content ;;
                 Ok (0 <? n)%Z
               else Ok false) ;;
  if nonempty : bool then
    content <- py_getitem_str response (lit "content") ;;
    first <- py_getitem_int content 0 ;;
    response_text <- py_getitem_str first (lit "text") ;;
    json_str <- select_json_str response_text ;;
    extracted_data <- Json.loads depth json_str ;;
    Ok (extracted_data, None)
  else Ok (JNull, Some (lit "No content in response")).

(** [extract_data_with_direct_client]. *)
Definition extract_data_with_direct_client (w : World)
    (pdf_base64 key prompt : str) : json * option str :=
  let body :=
    let client := new_client key in
    pdf_images <- pdf_to_images w pdf_base64 default_max_pages ;;
    let content := build_content pdf_images in
    response <- create_message w client prompt (user_messages content)
                  default_model default_max_tokens default_temperature ;;
    process_response (headroom w) response in
  match body with
  | Ok result => result
  | Raise e => (JNull, Some (lit "Error with direct Anthropic API call: " ++ e))
  end.

(* ===================================================================== *)
(** ** test.py *)
(* ===================================================================== *)

Definition basic_template : str := lit "
    You are an expert document extraction system specializing in Purchase Order extraction.
    Extract the following information from the provided purchase order document in a structured JSON format:

    1. Purchase order information: PO number, date, expiry date (if available), total amount
    2. Customer information: Customer name, address, email ID, contact number
    3. Vendor information: Vendor name, address, contact, email
    4. Table data: Products/items with their details (convert tables to JSON format)

    Rules:
    - If any information is not present in the document, use null for that field
    - Be precise with field names and values
    - Maintain the structure of tables when converting to JSON
    - For numerical values, preserve the original format (including currency symbols if present)
    - Intelligently handle different PO layouts and formatting anomalies

    Provide ONLY the JSON output with no additional explanation.
    Format the JSON using appropriate indentation for readability.
    ".

Definition advanced_addition : str := lit "
    Additionally, extract any other fields that might be present in the document, such as:
    - Shipping information
    - Payment terms
    - Discounts
    - Tax information
    - Notes or additional comments
    ".

(** [create_extraction_prompt]; [mode] is whatever the caller passes. *)
Definition create_extraction_prompt (pdf_data : str) (mode : json) : str :=
  let template := basic_template in
  if eq_str mode (lit "advanced") then template ++ advanced_addition
  else template.

(** [extract_po_data]. *)
Definition extract_po_data (w : World) (pdf_base64 key : str) (mode : json)
  : json * option str :=
  extract_data_with_direct_client w pdf_base64 key
    (create_extraction_prompt pdf_base64 mode).

(** The truth value of [error] in [if error:]. *)
Definition truthy (error : option str) : bool :=
  match error with
  | Some (_ :: _) => true
  | _ => false
  end.

Inductive Shown : Type :=
| ShowError (message : option str)
| ShowResult (extracted_data : json).

(** What the page does with the pair: [st.error(error)] or the branch
    that displays [extracted_data]. *)
Definition show (result : json * option str) : Shown :=
  let (extracted_data, error) := result in
  if truthy error then ShowError error else ShowResult extracted_data.

(* ===================================================================== *)
(** ** Vocabulary of the statements *)
(* ===================================================================== *)

(** [s.partition(sep)[0]]: what precedes the leftmost [sep], all of [s]
    when there is none. *)
Definition before (s sep : str) : str :=
  match partition s sep with
  | Some (b, _) => b
  | None => s
  end.

(** [s.partition(sep)[2]]: what follows the leftmost [sep]. *)
Definition after (s sep : str) : str :=
  match partition s sep with
  | Some (_, a) => a
  | None => []
  end.

(** [s] is [pre], then [sep], then [post], and [sep] occurs nowhere
    further to the left. *)
Definition leftmost (sep pre s post : str) : Prop :=
  s = pre ++ sep ++ post /\
  forall pre' post', s = pre' ++ sep ++ post' -> length pre <= length pre'.

(** A success status in the sense of HTTP (RFC 9110, section 15.3) and of
    [httpx.Response.is_success]: the codes 200 to 299. *)
Definition http_success (status : Z) : bool :=
  (200 <=? status)%Z && (status <=? 299)%Z.

(** The message of the exception raised by [create_message]. *)
Definition status_error (response : Response) : str :=
  lit "API request failed with status "
    ++ str_of_int (status_code response) ++ lit ": " ++ text response.

(** The image of page [n]: [load_page], then the rendering. *)
Definition page_image (w : World) (doc : Document (Page w)) (n : Z) : exc str :=
  page <- load_page doc n ;; render_png w page.

Definition newline : str := [10%N].
Definition quote : str := [34%N].

(** A response body whose first content element carries [reply_text]. *)
Definition reply (reply_text : str) : json :=
  JDict [ (lit "content",
           JList [ JDict [ (lit "type", JStr (lit "text"));
                           (lit "text", JStr reply_text) ] ]) ].

(** The text that [select_json_str] takes out of a [str]. *)
Definition selected (t : str) : str :=
  if contains fence_json t then
    before (before (after t fence_json) fence_json) fence
  else if contains fence t then before (after t fence) fence
  else t.

(** The reply of the specification's example: the object with the one
    member a, fenced with the language marker. *)
Definition fenced_object : str :=
  fence_json ++ newline ++ lit "{" ++ quote ++ lit "a" ++ quote ++ lit ":1}"
    ++ newline ++ fence.

(** A reply whose closing fence is the start of a longer run of backquotes
    that a second language marker follows. *)
Definition overlapping_fences : str := lit "```json{}````json".

(** *** Sample collaborators *)

(** Room for a thousand nested arrays and objects. *)
Definition sample_headroom : nat := 1000.

(** A document of [pages] pages, each page standing for its number. *)
Definition sample_document (pages : nat) : Document Z := {|
  page_count := pages;
  load_page := fun n =>
    if ((0 <=? n) && (n <? Z.of_nat pages))%Z then Ok n
    else Raise (lit "page not in document")
|}.

(** Collaborators that decode any text, open it as a document of [pages]
    pages, render page [n] as the text of [n], and answer every request
    with [response]. *)
Definition sample_world (pages : nat) (response : Response) : World := {|
  Page := Z;
  b64decode := fun pdf_data => Ok pdf_data;
  fitz_open := fun _ => Ok (sample_document pages);
  render_png := fun n => Ok (lit "page" ++ str_of_int n);
  http_post := fun _ _ _ => Ok response;
  headroom := sample_headroom
|}.

(** Collaborators for which no input is a PDF. *)
Definition broken_world : World := {|
  Page := Z;
  b64decode := fun pdf_data => Ok pdf_data;
  fitz_open := fun _ => Raise (lit "cannot open broken document");
  render_png := fun n => Ok (lit "page" ++ str_of_int n);
  http_post := fun _ _ _ => Raise (lit "connection refused");
  headroom := sample_headroom
|}.

(** An answer whose body is the ASCII text [body], out of which
    [response.json()] makes what [json.loads] makes of the text. *)
Definition answer (status : Z) (body : str) : Response :=
  {| status_code := status; text := body;
     response_json := Json.loads sample_headroom body |}.

Definition ok_response (body : str) : Response := answer 200 body.

(** The text of a response body with one text element, [escaped] being
    the reply as a JSON string literal without its quotes. *)
Definition body_of (escaped : str) : str :=
  lit "{" ++ quote ++ lit "content" ++ quote ++ lit ":[{"
    ++ quote ++ lit "type" ++ quote ++ lit ":" ++ quote ++ lit "text" ++ quote
    ++ lit "," ++ quote ++ lit "text" ++ quote ++ lit ":"
    ++ quote ++ escaped ++ quote ++ lit "}]}".

(** The reply that fences the JSON literal null. *)
Definition null_reply : str :=
  fence_json ++ newline ++ lit "null" ++ newline ++ fence.

Definition null_body : str := body_of (lit "```json\nnull\n```").

(** The body that carries the fenced object. *)
Definition object_body : str :=
  body_of (lit "```json\n{\" ++ quote ++ lit "a\" ++ quote ++ lit ":1}\n```").

(** The categories that the advanced mode adds. *)
Definition added_categories : list str :=
  [ lit "Shipping information"; lit "Payment terms"; lit "Discounts";
    lit "Tax information"; lit "Notes or additional comments" ].

(** The keys of a [dict], in order. *)
Definition keys (v : json) : list str :=
  match v with
  | JDict members => map fst members
  | _ => []
  end.

(* ===================================================================== *)
(** ** test.py: the page *)
(* ===================================================================== *)

(** What the page calls and does not define.
    - [temp_file]: the bytes written to a named temporary file, read
      back, the file unlinked;
    - [dumps_indent2]: [json.dumps(data, indent=2)];
    - [float_truthy]: the truth value of the [float] of a literal;
    - [dataframe]: [pd.DataFrame(rows)] and its display by
      [st.dataframe]. *)
Record Ui : Type := {
  temp_file : bytes -> exc bytes;
  dumps_indent2 : json -> str;
  float_truthy : str -> bool;
  dataframe : list json -> exc unit
}.

(** [get_pdf_as_base64], on the bytes of the uploaded file. *)
Definition get_pdf_as_base64 (ui : Ui) (file_bytes : bytes) : exc str :=
  data <- temp_file ui file_bytes ;;
  Ok (Base64.b64encode data).

(** What the page puts on the screen, and what it keeps. *)
Inductive Widget : Type :=
| st_error (body : str)
| st_markdown (body : str)
| st_json (body : json)
| st_download_button (label data file_name mime : str)
| st_dataframe (rows : list json)
| st_write (body : json)
| session_state_set (key : str) (value : json).

(** The truth value of a value, as in [if v:] and [a and v]. *)
Definition py_truthy (ui : Ui) (v : json) : bool :=
  match v with
  | JNull => false
  | JBool b => b
  | JInt n => negb (n =? 0)%Z
  | JFloat lexeme => float_truthy ui lexeme
  | JStr s => match s with [] => false | _ :: _ => true end
  | JList items => match items with [] => false | _ :: _ => true end
  | JDict members => match members with [] => false | _ :: _ => true end
  end.

Definition div_class (class body : str) : str :=
  lit "<div class=" ++ quote ++ class ++ quote ++ lit ">" ++ body.

Definition sub_header (title : str) : str :=
  div_class (lit "sub-header") (title ++ lit "</div>").

(** The loop over [extracted_data["table_data"].items()]. *)
Fixpoint preview_tables (ui : Ui) (items : list (str * json)) : list Widget :=
  match items with
  | [] => []
  | (table_name, table_content) :: rest =>
      st_markdown (lit "**" ++ table_name ++ lit "**")
      :: match table_content with
         | JList (row :: rows) =>
             match dataframe ui (row :: rows) with
             | Ok _ => [st_dataframe (row :: rows)]
             | Raise _ => [st_write table_content]
             end
         | _ => []
         end
      ++ preview_tables ui rest
  end.

(** The widgets that show a result, before the table preview. *)
Definition result_widgets (ui : Ui) (extracted_data : json) : list Widget :=
  [ st_markdown (sub_header (lit "Extracted Purchase Order Data"));
    st_markdown (div_class (lit "result-container") []);
    st_json extracted_data;
    st_markdown (lit "</div>");
    st_markdown (sub_header (lit "Download Options"));
    st_download_button (lit "Download JSON") (dumps_indent2 ui extracted_data)
                       (lit "purchase_order_data.json")
                       (lit "application/json") ].

Definition store (extracted_data : json) : Widget :=
  session_state_set (lit "extracted_data") extracted_data.

(** The [else] branch of [if error:]: the widgets put out, and the
    exception that ended the run, if one did. *)
Definition show_result (ui : Ui) (extracted_data : json)
  : list Widget * option str :=
  let shown := result_widgets ui extracted_data in
  match py_in (lit "table_data") extracted_data with
  | Raise e => (shown, Some e)
  | Ok false => (shown ++ [store extracted_data], None)
  | Ok true =>
      match py_getitem_str extracted_data (lit "table_data") with
      | Raise e => (shown, Some e)
      | Ok table_data =>
          if py_truthy ui table_data then
            let shown := shown ++ [st_markdown (sub_header (lit "Table Preview"))] in
            match table_data with
            | JDict items =>
                (shown ++ preview_tables ui items ++ [store extracted_data], None)
            | _ => (shown, Some (no_attribute table_data (lit "items")))
            end
          else (shown ++ [store extracted_data], None)
      end
  end.

Definition missing_key_message : str :=
  lit "Please enter your Anthropic API key in the sidebar to proceed.".

(** The body of [if st.button("Extract Purchase Order Data"):], for the
    key and the mode of the sidebar and the bytes of the uploaded file. *)
Definition on_extract (ui : Ui) (w : World) (key extraction_mode : str)
    (file_bytes : bytes) : list Widget * option str :=
  match key with
  | [] => ([st_error missing_key_message], None)
  | _ :: _ =>
      match get_pdf_as_base64 ui file_bytes with
      | Raise e => ([], Some e)
      | Ok pdf_base64 =>
          let mode :=
            if str_eqb extraction_mode (lit "Advanced (All Fields)")
            then lit "advanced" else lit "basic" in
          let (extracted_data, error) :=
            extract_po_data w pdf_base64 key (JStr mode) in
          match error with
          | Some (c :: e) => ([st_error (c :: e)], None)
          | _ => show_result ui extracted_data
          end
      end
  end.

(** *** Further vocabulary *)

(** The collaborators of [w], with another HTTP transport. *)
Definition with_post (w : World)
    (post : str -> list (str * str) -> json -> exc Response) : World := {|
  Page := Page w;
  b64decode := b64decode w;
  fitz_open := fitz_open w;
  render_png := render_png w;
  http_post := post;
  headroom := headroom w
|}.

(** The collaborators of [w], with the decoder of [base64]. *)
Definition with_base64 (w : World) : World := {|
  Page := Page w;
  b64decode := Base64.b64decode;
  fitz_open := fitz_open w;
  render_png := render_png w;
  http_post := http_post w;
  headroom := headroom w
|}.

Definition api_url : str := lit "https://api.anthropic.com/v1/messages".

Definition extraction_prefix : str := lit "Error with direct Anthropic API call: ".
Definition conversion_prefix : str := lit "Error converting PDF to images: ".

Definition backquote : char := 96%N.

(** No backquote in [s]. *)
Definition plain (s : str) : Prop := Forall (fun c => c <> backquote) s.

(** Every byte below 256. *)
Definition octets (data : bytes) : Prop := Forall (fun b => (b < 256)%N) data.

(** A page of the sample kind: files are read back as written, every
    table is accepted by pandas. *)
Definition sample_ui : Ui := {|
  temp_file := fun data => Ok data;
  dumps_indent2 := fun _ => lit "{}";
  float_truthy := fun _ => true;
  dataframe := fun _ => Ok tt
|}.

(** The rasterizer and the client have succeeded, and the client has
    returned [response]. *)
Definition answered (w : World) (pdf_base64 key prompt : str)
    (response : json) : Prop :=
  exists images,
    pdf_to_images w pdf_base64 default_max_pages = Ok images /\
    create_message w (new_client key) prompt
                   (user_messages (build_content images))
                   default_model default_max_tokens default_temperature
      = Ok response.

(** The headers of the one request. *)
Definition request_headers (key : str) : list (str * str) :=
  [ (lit "x-api-key", key);
    (lit "anthropic-version", lit "2023-06-01");
    (lit "content-type", lit "application/json") ].

(** The system instruction that the page asks for, given the choice of
    the sidebar. *)
Definition prompt_for (extraction_mode : str) : str :=
  if str_eqb extraction_mode (lit "Advanced (All Fields)")
  then basic_template ++ advanced_addition
  else basic_template.




(* ===================================================================== *)
(** * Properties *)
(* ===================================================================== *)

(** ** Strings *)


Lemma startswith_app (sep post : str) : startswith (sep ++ post) sep = true.
Proof.
  induction sep as [|c sep IH]; simpl; [reflexivity|].
  now rewrite N.eqb_refl, IH.
Qed.

Lemma startswith_inv (s sep : str) :
  startswith s sep = true -> s = sep ++ skipn (length sep) s.
Proof.
  revert s. induction sep as [|c sep IH]; intros s H; simpl in *.
  - reflexivity.
  - destruct s as [|d s]; [discriminate|].
    apply andb_true_iff in H as [Hc Hs]. apply N.eqb_eq in Hc. subst d.
    simpl. f_equal. now apply IH.
Qed.

Lemma skipn_sep_app (sep post : str) : skipn (length sep) (sep ++ post) = post.
Proof. induction sep; simpl; auto. Qed.

Lemma partition_app (s sep pre post : str) :
  partition s sep = Some (pre, post) -> s = pre ++ sep ++ post.
Proof.
  revert pre. induction s as [|c s IH]; intros pre; simpl.
  - destruct (startswith [] sep) eqn:E; [|discriminate].
    intros H. injection H as <- <-. now apply startswith_inv in E.
  - destruct (startswith (c :: s) sep) eqn:E.
    + intros H. injection H as <- <-. now apply startswith_inv in E.
    + destruct (partition s sep) as [[b a]|]; [|discriminate].
      intros H. injection H as <- <-. simpl. f_equal. now apply IH.
Qed.

Lemma partition_is_leftmost (s sep pre post : str) :
  partition s sep = Some (pre, post) -> leftmost sep pre s post.
Proof.
  intros H. split; [now apply partition_app|].
  revert pre H. induction s as [|c s IH]; intros pre H pre' post' E; simpl in H.
  - destruct (startswith [] sep); [|discriminate].
    injection H as <- <-. simpl. lia.
  - destruct (startswith (c :: s) sep) eqn:S0.
    + injection H as <- <-. simpl. lia.
    + destruct (partition s sep) as [[b a]|] eqn:P; [|discriminate].
      injection H as <- <-.
      destruct pre' as [|d pre'].
      * simpl in E. rewrite E, startswith_app in S0. discriminate.
      * simpl in E. injection E as _ E. simpl.
        apply le_n_S. eapply IH; eauto.
Qed.

Lemma leftmost_partition (s sep pre post : str) :
  leftmost sep pre s post -> partition s sep = Some (pre, post).
Proof.
  intros [E L]. subst s. induction pre as [|c pre IH].
  - simpl. destruct (sep ++ post) eqn:Es; simpl;
      rewrite <- Es, startswith_app, ?skipn_sep_app; reflexivity.
  - simpl. destruct (startswith (c :: pre ++ sep ++ post) sep) eqn:S0.
    + apply startswith_inv in S0.
      specialize (L [] _ S0). simpl in L. lia.
    + rewrite IH; [reflexivity|].
      intros pre' post' E. specialize (L (c :: pre') post').
      simpl in L. rewrite E in L. specialize (L eq_refl). lia.
Qed.

Lemma contains_partition (s sep : str) :
  contains sep s = match partition s sep with Some _ => true | None => false end.
Proof.
  induction s as [|c s IH]; simpl.
  - destruct (startswith [] sep); reflexivity.
  - destruct (startswith (c :: s) sep); simpl; [reflexivity|].
    rewrite IH. destruct (partition s sep) as [[b a]|]; reflexivity.
Qed.

Lemma contains_occurrence (s sep : str) :
  contains sep s = true <-> exists pre post, s = pre ++ sep ++ post.
Proof.
  rewrite contains_partition. split.
  - destruct (partition s sep) as [[b a]|] eqn:P; [|discriminate].
    intros _. exists b, a. now apply partition_app.
  - intros (pre & post & E). subst s.
    induction pre as [|c pre IH]; simpl.
    + destruct (sep ++ post) eqn:Es; simpl; rewrite <- Es, startswith_app; reflexivity.
    + destruct (startswith _ sep); [reflexivity|].
      destruct (partition (pre ++ sep ++ post) sep) as [[b a]|]; [reflexivity|discriminate].
Qed.

Lemma partition_length (s sep b a : str) :
  partition s sep = Some (b, a) -> length s = length b + length sep + length a.
Proof.
  intros H. apply partition_app in H. subst s. rewrite !length_app. lia.
Qed.

(** The rounds of [split_fuel] are never used up. *)
Lemma split_fuel_enough (sep : str) :
  sep <> [] ->
  forall f1 f2 s, length s < f1 -> length s < f2 ->
  split_fuel f1 s sep = split_fuel f2 s sep.
Proof.
  intros Hsep. induction f1 as [|f1 IH]; intros f2 s H1 H2; [lia|].
  destruct f2 as [|f2]; [lia|]. simpl.
  destruct (partition s sep) as [[b a]|] eqn:P; [|reflexivity].
  f_equal. apply partition_length in P.
  assert (0 < length sep) by (destruct sep; [congruence|simpl; lia]).
  apply IH; lia.
Qed.

(** [split] cuts at the leftmost separator and goes on behind it. *)
Lemma split_nonempty_eq (s sep : str) :
  sep <> [] ->
  split_nonempty s sep =
  match partition s sep with
  | None => [s]
  | Some (b, a) => b :: split_nonempty a sep
  end.
Proof.
  intros Hsep. unfold split_nonempty.
  change (split_fuel (S (length s)) s sep)
    with (match partition s sep with
          | None => [s]
          | Some (b, a) => b :: split_fuel (length s) a sep
          end).
  destruct (partition s sep) as [[b a]|] eqn:P; [|reflexivity].
  f_equal. apply partition_length in P.
  assert (0 < length sep) by (destruct sep; [congruence|simpl; lia]).
  apply split_fuel_enough; auto; lia.
Qed.

Lemma split_nonempty_head (s sep : str) :
  sep <> [] -> nth_error (split_nonempty s sep) 0 = Some (before s sep).
Proof.
  intros Hsep. rewrite split_nonempty_eq by assumption. unfold before.
  destruct (partition s sep) as [[b a]|]; reflexivity.
Qed.

Lemma split_nonempty_second (s sep b a : str) :
  sep <> [] -> partition s sep = Some (b, a) ->
  nth_error (split_nonempty s sep) 1 = Some (before a sep).
Proof.
  intros Hsep P. rewrite split_nonempty_eq, P by assumption. simpl.
  now apply split_nonempty_head.
Qed.

(** What precedes the leftmost separator holds none. *)
Lemma before_no_sep (s sep : str) :
  sep <> [] -> partition (before s sep) sep = None.
Proof.
  intros Hsep. unfold before.
  destruct (partition s sep) as [[b a]|] eqn:P; [|assumption].
  destruct (partition b sep) as [[b' a']|] eqn:Pb; [|reflexivity].
  apply partition_is_leftmost in P. destruct P as [E L].
  apply partition_app in Pb.
  specialize (L b' (a' ++ sep ++ a)).
  rewrite E, Pb, <- !app_assoc in L. specialize (L eq_refl).
  rewrite !length_app in L.
  assert (0 < length sep) by (destruct sep; [congruence|simpl; lia]). lia.
Qed.

Lemma before_idem (s sep : str) :
  sep <> [] -> before (before s sep) sep = before s sep.
Proof.
  intros Hsep. unfold before at 1. now rewrite before_no_sep.
Qed.

(** ** The substring handed to [json.loads] *)

Lemma fence_nonempty : fence <> [].
Proof. discriminate. Qed.

Lemma fence_json_nonempty : fence_json <> [].
Proof. discriminate. Qed.

Lemma py_split_str (s sep : str) :
  sep <> [] -> py_split (JStr s) sep = Ok (split_nonempty s sep).
Proof. destruct sep; [congruence|reflexivity]. Qed.

Lemma list_index_nth {A : Type} (xs : list A) (n : nat) (x : A) (what : str) :
  nth_error xs n = Some x -> list_index xs (Z.of_nat n) what = Ok x.
Proof.
  intros H. unfold list_index.
  destruct (Z.ltb_spec (Z.of_nat n) 0); [lia|].
  destruct (Z.ltb_spec (Z.of_nat n) 0); [lia|].
  now rewrite Nat2Z.id, H.
Qed.

(** Piece 1 of the split at [sep], cut at its first fence. *)
Lemma split_pick (t sep : str) :
  sep <> [] -> contains sep t = true ->
  (parts <- py_split (JStr t) sep ;;
   inner <- list_index parts 1 (lit "list") ;;
   pieces <- py_split (JStr inner) fence ;;
   piece <- list_index pieces 0 (lit "list") ;;
   Ok (strip piece))
  = Ok (strip (before (before (after t sep) sep) fence)).
Proof.
  intros Hsep C. rewrite contains_partition in C. unfold after.
  destruct (partition t sep) as [[b a]|] eqn:P; [|discriminate].
  change 1%Z with (Z.of_nat 1). change 0%Z with (Z.of_nat 0).
  rewrite py_split_str by assumption. cbn [bind].
  rewrite (@list_index_nth _ _ 1 _ (lit "list") (@split_nonempty_second _ _ _ _ Hsep P)).
  cbn [bind]. rewrite py_split_str by apply fence_nonempty. cbn [bind].
  rewrite (@list_index_nth _ _ 0 _ (lit "list")
             (@split_nonempty_head _ _ fence_nonempty)).
  reflexivity.
Qed.

Lemma select_json_str_selected (t : str) :
  select_json_str (JStr t) = Ok (strip (selected t)).
Proof.
  unfold select_json_str, selected. cbn [py_in bind].
  destruct (contains fence_json t) eqn:C1.
  - now apply split_pick; [apply fence_json_nonempty|].
  - cbn [py_in bind]. destruct (contains fence t) eqn:C2.
    + rewrite split_pick by (auto using fence_nonempty).
      now rewrite before_idem by apply fence_nonempty.
    + reflexivity.
Qed.

(** A leftmost occurrence is still leftmost in a prefix that holds it. *)
Lemma before_of_prefix (sep mid rest post inner tail : str) :
  leftmost sep mid rest post -> rest = inner ++ tail ->
  length (mid ++ sep) <= length inner ->
  before inner sep = mid.
Proof.
  intros [E L] Ei Hlen.
  assert (exists x, inner = mid ++ sep ++ x) as [x Hx].
  { rewrite E, app_assoc in Ei. apply app_eq_app in Ei as [l [[E1 E2]|[E1 E2]]].
    - exists []. rewrite E1, length_app in Hlen.
      destruct l; [|simpl in Hlen; lia].
      rewrite !app_nil_r in *. now symmetry.
    - exists l. now rewrite E1, <- app_assoc. }
  unfold before. rewrite (@leftmost_partition inner sep mid x); [reflexivity|].
  split; [assumption|]. intros pre' post' E'. apply (L pre' (post' ++ tail)).
  now rewrite Ei, E', <- !app_assoc.
Qed.

Lemma leftmost_before (sep pre s post : str) :
  leftmost sep pre s post -> before s sep = pre.
Proof. intros H. unfold before. now rewrite (@leftmost_partition _ _ _ _ H). Qed.

Lemma leftmost_after (sep pre s post : str) :
  leftmost sep pre s post -> after s sep = post.
Proof. intros H. unfold after. now rewrite (@leftmost_partition _ _ _ _ H). Qed.

Lemma leftmost_contains (sep pre s post : str) :
  leftmost sep pre s post -> contains sep s = true.
Proof. intros H. now rewrite contains_partition, (@leftmost_partition _ _ _ _ H). Qed.

Lemma before_split (s sep : str) :
  exists tail, s = before s sep ++ tail.
Proof.
  unfold before. destruct (partition s sep) as [[b a]|] eqn:P.
  - exists (sep ++ a). now apply partition_app.
  - exists []. now rewrite app_nil_r.
Qed.

(** C1, as amended.  The reply parser takes the substring to parse by
    three ordered branches, and trims it in each.  With a JSON-marked
    fence in the text: what follows the first such fence, up to the next
    JSON-marked fence, cut at its first fence; this is the content
    between the opening fence and the next closing fence whenever that
    closing fence ends before a later JSON-marked fence begins.  Else,
    with any fence in the text: the content between the first fence and
    the next.  Else the whole text.  The reply of the example, the
    fenced object with the member a equal to 1, yields that object and
    no error, in an interpreter with room for one object. *)
Theorem response_parser_branches :
  (forall t, select_json_str (JStr t) = Ok (strip (selected t))) /\
  (forall t pre rest mid post,
      leftmost fence_json pre t rest -> leftmost fence mid rest post ->
      length (mid ++ fence) <= length (before rest fence_json) ->
      select_json_str (JStr t) = Ok (strip mid)) /\
  (forall t pre rest mid post,
      contains fence_json t = false ->
      leftmost fence pre t rest -> leftmost fence mid rest post ->
      select_json_str (JStr t) = Ok (strip mid)) /\
  (forall t, contains fence t = false ->
      select_json_str (JStr t) = Ok (strip t)) /\
  (forall depth,
      process_response (S depth) (reply fenced_object)
      = Ok (JDict [(lit "a", JInt 1)], None)).
Proof.
  split; [exact select_json_str_selected|].
  split; [|split; [|split]].
  - intros t pre rest mid post Hj Hf Hlen.
    rewrite select_json_str_selected. unfold selected.
    rewrite (leftmost_contains Hj), (leftmost_after Hj).
    destruct (before_split rest fence_json) as [tail Ht].
    now rewrite (@before_of_prefix _ _ _ _ _ _ Hf Ht Hlen).
  - intros t pre rest mid post Hj Hf Hm.
    rewrite select_json_str_selected. unfold selected.
    now rewrite Hj, (leftmost_contains Hf), (leftmost_after Hf),
      (leftmost_before Hm).
  - intros t Hf. rewrite select_json_str_selected. unfold selected.
    rewrite Hf.
    destruct (contains fence_json t) eqn:Hj; [|reflexivity].
    apply contains_occurrence in Hj as (pre & post & E).
    assert (contains fence t = true) as C; [|congruence].
    apply contains_occurrence. exists pre, (lit "json" ++ post).
    rewrite E. reflexivity.
  - intros depth. vm_compute. reflexivity.
Qed.

Lemma response_parser_branches_witness :
  select_json_str (JStr fenced_object)
  = Ok (lit "{" ++ quote ++ lit "a" ++ quote ++ lit ":1}").
Proof.
  apply (proj1 (proj2 response_parser_branches)
           fenced_object []
           (newline ++ lit "{" ++ quote ++ lit "a" ++ quote ++ lit ":1}"
              ++ newline ++ fence)
           (newline ++ lit "{" ++ quote ++ lit "a" ++ quote ++ lit ":1}"
              ++ newline)
           []).
  - apply partition_is_leftmost. reflexivity.
  - apply partition_is_leftmost. reflexivity.
  - vm_compute. lia.
Defined.

(** C1, as stated, fails where the closing fence overlaps a later
    JSON-marked fence: after the opening fence of
    [overlapping_fences] the next fence closes the braces, yet the
    parser keeps one backquote more, and the reply does not parse. *)
Lemma response_parser_counterexample :
  leftmost fence_json [] overlapping_fences (lit "{}````json") /\
  leftmost fence (lit "{}") (lit "{}````json") (lit "`json") /\
  select_json_str (JStr overlapping_fences) = Ok (lit "{}`") /\
  select_json_str (JStr overlapping_fences) <> Ok (strip (lit "{}")) /\
  (forall depth,
      process_response (S depth) (reply overlapping_fences)
      = Raise (lit "Extra data: line 1 column 3 (char 2)")) /\
  (forall depth, Json.loads (S depth) (strip (lit "{}")) = Ok (JDict [])).
Proof.
  split; [apply partition_is_leftmost; reflexivity|].
  split; [apply partition_is_leftmost; reflexivity|].
  split; [vm_compute; reflexivity|].
  split; [vm_compute; discriminate|].
  split; intros depth; vm_compute; reflexivity.
Qed.

(** ** The result pair *)

Ltac step_bind :=
  match goal with
  | |- context [bind ?c _] => destruct c; cbn [bind]
  | |- context [if ?b then _ else _] => destruct b
  end.

Lemma process_response_value (depth : nat) (response v : json) :
  process_response depth response = Ok (v, None) <->
  exists content n first response_text json_str,
    py_in (lit "content") response = Ok true /\
    py_getitem_str response (lit "content") = Ok content /\
    py_len content = Ok n /\ (0 < n)%Z /\
    py_getitem_int content 0 = Ok first /\
    py_getitem_str first (lit "text") = Ok response_text /\
    select_json_str response_text = Ok json_str /\
    Json.loads depth json_str = Ok v.
Proof.
  unfold process_response. split.
  - destruct (py_in (lit "content") response) as [[|]|] eqn:Hin;
      cbn [bind]; try discriminate.
    destruct (py_getitem_str response (lit "content")) as [content|] eqn:Hc;
      cbn [bind]; try discriminate.
    destruct (py_len content) as [n|] eqn:Hl; cbn [bind]; try discriminate.
    destruct (Z.ltb_spec 0 n); try discriminate.
    destruct (py_getitem_int content 0) as [first|] eqn:Hf;
      cbn [bind]; try discriminate.
    destruct (py_getitem_str first (lit "text")) as [t|] eqn:Ht;
      cbn [bind]; try discriminate.
    destruct (select_json_str t) as [s|] eqn:Hs; cbn [bind]; try discriminate.
    destruct (Json.loads depth s) as [v'|] eqn:Hv; cbn [bind]; try discriminate.
    intros [= <-]. exists content, n, first, t, s. repeat split; assumption.
  - intros (content & n & first & t & s & Hin & Hc & Hl & Hn & Hf & Ht & Hs & Hv).
    rewrite Hin. cbn [bind]. rewrite Hc. cbn [bind]. rewrite Hl. cbn [bind].
    destruct (Z.ltb_spec 0 n); [|lia].
    rewrite Hf. cbn [bind]. rewrite Ht. cbn [bind]. rewrite Hs. cbn [bind].
    rewrite Hv. reflexivity.
Qed.

Lemma process_response_parse_error (depth : nat)
    (response content first response_text : json) (n : Z) (json_str e : str) :
  py_in (lit "content") response = Ok true ->
  py_getitem_str response (lit "content") = Ok content ->
  py_len content = Ok n -> (0 < n)%Z ->
  py_getitem_int content 0 = Ok first ->
  py_getitem_str first (lit "text") = Ok response_text ->
  select_json_str response_text = Ok json_str ->
  Json.loads depth json_str = Raise e ->
  process_response depth response = Raise e.
Proof.
  intros Hin Hc Hl Hn Hf Ht Hs Hv. unfold process_response.
  rewrite Hin. cbn [bind]. rewrite Hc. cbn [bind]. rewrite Hl. cbn [bind].
  destruct (Z.ltb_spec 0 n); [|lia].
  rewrite Hf. cbn [bind]. rewrite Ht. cbn [bind]. rewrite Hs. cbn [bind].
  rewrite Hv. reflexivity.
Qed.

Lemma process_response_shape (depth : nat) (response : json) :
  match process_response depth response with
  | Ok (_, None) => True
  | Ok (v, Some e) => v = JNull /\ e = lit "No content in response"
  | Raise _ => True
  end.
Proof.
  unfold process_response. repeat step_bind; try exact I.
  all: split; reflexivity.
Qed.

(** [extract_data_with_direct_client], one step after the other. *)
Lemma extract_steps (w : World) (pdf_base64 key prompt : str) :
  extract_data_with_direct_client w pdf_base64 key prompt =
  match pdf_to_images w pdf_base64 default_max_pages with
  | Raise e => (JNull, Some (lit "Error with direct Anthropic API call: " ++ e))
  | Ok images =>
      match create_message w (new_client key) prompt
                           (user_messages (build_content images))
                           default_model default_max_tokens default_temperature
      with
      | Raise e =>
          (JNull, Some (lit "Error with direct Anthropic API call: " ++ e))
      | Ok response =>
          match process_response (headroom w) response with
          | Raise e =>
              (JNull, Some (lit "Error with direct Anthropic API call: " ++ e))
          | Ok result => result
          end
      end
  end.
Proof.
  unfold extract_data_with_direct_client.
  destruct (pdf_to_images w pdf_base64 default_max_pages); cbn [bind];
    [|reflexivity].
  destruct (create_message _ _ _ _ _ _ _); reflexivity.
Qed.

(** C2.  Whatever the document, the key, the prompt and the behaviour of
    the collaborators, [extract_data_with_direct_client] returns a pair
    that is either a value with no error, or no value with an error
    text, which is never empty: the fixed text for a response without
    content, or the text of the exception caught behind a fixed prefix.
    No exception leaves it, and no pair carries both a value and an
    error.  The value is returned exactly when the rasterizer and the
    client have succeeded, the response has content, and [json.loads]
    accepts the text selected from the text of its first element: it is
    what [json.loads] returns.  An exception of the rasterizer, of the
    client, of the processing of the response or of [json.loads] is
    returned as its text behind the prefix, with no value; a response
    that lacks the key content gives the fixed text. *)
Theorem extraction_returns_result_or_error
    (w : World) (pdf_base64 key prompt : str) :
  let result := extract_data_with_direct_client w pdf_base64 key prompt in
  let request images :=
    create_message w (new_client key) prompt
                   (user_messages (build_content images))
                   default_model default_max_tokens default_temperature in
  ((exists v, result = (v, None))
   \/
   (exists e,
      result = (JNull, Some e) /\
      e <> [] /\
      (e = lit "No content in response" \/
       exists cause, e = lit "Error with direct Anthropic API call: " ++ cause)))
  /\
  (forall v,
      result = (v, None) <->
      exists images response content n first response_text json_str,
        pdf_to_images w pdf_base64 default_max_pages = Ok images /\
        request images = Ok response /\
        py_in (lit "content") response = Ok true /\
        py_getitem_str response (lit "content") = Ok content /\
        py_len content = Ok n /\ (0 < n)%Z /\
        py_getitem_int content 0 = Ok first /\
        py_getitem_str first (lit "text") = Ok response_text /\
        select_json_str response_text = Ok json_str /\
        Json.loads (headroom w) json_str = Ok v)
  /\
  (forall e,
      pdf_to_images w pdf_base64 default_max_pages = Raise e ->
      result = (JNull, Some (lit "Error with direct Anthropic API call: " ++ e)))
  /\
  (forall images e,
      pdf_to_images w pdf_base64 default_max_pages = Ok images ->
      request images = Raise e ->
      result = (JNull, Some (lit "Error with direct Anthropic API call: " ++ e)))
  /\
  (forall images response e,
      pdf_to_images w pdf_base64 default_max_pages = Ok images ->
      request images = Ok response ->
      process_response (headroom w) response = Raise e ->
      result = (JNull, Some (lit "Error with direct Anthropic API call: " ++ e)))
  /\
  (forall images response content first response_text n json_str e,
      pdf_to_images w pdf_base64 default_max_pages = Ok images ->
      request images = Ok response ->
      py_in (lit "content") response = Ok true ->
      py_getitem_str response (lit "content") = Ok content ->
      py_len content = Ok n -> (0 < n)%Z ->
      py_getitem_int content 0 = Ok first ->
      py_getitem_str first (lit "text") = Ok response_text ->
      select_json_str response_text = Ok json_str ->
      Json.loads (headroom w) json_str = Raise e ->
      result = (JNull, Some (lit "Error with direct Anthropic API call: " ++ e)))
  /\
  (forall images response,
      pdf_to_images w pdf_base64 default_max_pages = Ok images ->
      request images = Ok response ->
      py_in (lit "content") response = Ok false ->
      result = (JNull, Some (lit "No content in response"))).
Proof.
  cbv zeta. rewrite extract_steps.
  assert (forall cause,
            lit "Error with direct Anthropic API call: " ++ cause <> []) as Hne
    by discriminate.
  split; [|split; [|split; [|split; [|split; [|split]]]]].
  - destruct (pdf_to_images w pdf_base64 default_max_pages) as [images|e];
      [|right; eexists; eauto].
    destruct (create_message _ _ _ _ _ _ _) as [response|e];
      [|right; eexists; eauto].
    pose proof (process_response_shape (headroom w) response) as H.
    destruct (process_response (headroom w) response) as [[v [e|]]|e].
    + destruct H as [-> ->]. right. eexists. split; [reflexivity|].
      split; [discriminate|now left].
    + left. now exists v.
    + right. eexists; eauto.
  - intros v. split.
    + destruct (pdf_to_images w pdf_base64 default_max_pages) as [images|e];
        [|discriminate].
      destruct (create_message _ _ _ _ _ _ _) as [response|e] eqn:Hm;
        [|discriminate].
      destruct (process_response (headroom w) response) as [r|e] eqn:Hp;
        [|discriminate].
      intros ->. apply process_response_value in Hp
        as (content & n & first & t & s & H).
      exists images, response, content, n, first, t, s. auto.
    + intros (images & response & content & n & first & t & s
              & Hi & Hm & H).
      rewrite Hi, Hm.
      assert (process_response (headroom w) response = Ok (v, None)) as ->;
        [|reflexivity].
      apply process_response_value. exists content, n, first, t, s. exact H.
  - intros e ->. reflexivity.
  - intros images e -> ->. reflexivity.
  - intros images response e -> -> ->. reflexivity.
  - intros images response content first t n s e -> -> Hin Hc Hl Hn Hf Ht Hs Hv.
    now rewrite (@process_response_parse_error _ _ _ _ _ _ _ _
                   Hin Hc Hl Hn Hf Ht Hs Hv).
  - intros images response -> -> Hin. unfold process_response.
    rewrite Hin. reflexivity.
Qed.

Lemma extraction_returns_result_or_error_witness :
  extract_data_with_direct_client
    (sample_world 1 (ok_response object_body)) [] (lit "sk-0") (lit "rules")
  = (JDict [(lit "a", JInt 1)], None).
Proof.
  apply (proj2 (proj1 (proj2 (extraction_returns_result_or_error
                                (sample_world 1 (ok_response object_body))
                                [] (lit "sk-0") (lit "rules")))
                      (JDict [(lit "a", JInt 1)]))).
  exists [lit "page0"], (reply fenced_object),
    (JList [ JDict [ (lit "type", JStr (lit "text"));
                     (lit "text", JStr fenced_object) ] ]),
    1%Z,
    (JDict [ (lit "type", JStr (lit "text"));
             (lit "text", JStr fenced_object) ]),
    (JStr fenced_object),
    (lit "{" ++ quote ++ lit "a" ++ quote ++ lit ":1}").
  repeat split; vm_compute; reflexivity.
Defined.

(** ** The rasterizer *)

Lemma in_py_range (n m : Z) : In n (py_range m) <-> (0 <= n < m)%Z.
Proof.
  unfold py_range. rewrite in_map_iff. split.
  - intros (k & <- & Hk). apply in_seq in Hk. lia.
  - intros H. exists (Z.to_nat n). split; [lia|]. apply in_seq. lia.
Qed.

Lemma length_py_range (m : Z) : (0 <= m)%Z -> Z.of_nat (length (py_range m)) = m.
Proof. intros H. unfold py_range. rewrite length_map, length_seq. lia. Qed.

Lemma render_loop_ok (w : World) (doc : Document (Page w))
    (nums : list Z) (imgs : list str) :
  Forall2 (fun n img => page_image w doc n = Ok img) nums imgs ->
  forall images loaded,
    render_loop w doc nums images loaded = (Ok (images ++ imgs), loaded ++ nums).
Proof.
  induction 1 as [|n img nums imgs Hn _ IH]; intros images loaded; simpl.
  - now rewrite !app_nil_r.
  - unfold page_image in Hn.
    destruct (load_page doc n) as [page|e]; cbn [bind] in Hn; [|discriminate].
    rewrite Hn, IH, <- !app_assoc. reflexivity.
Qed.

Lemma images_exist (w : World) (doc : Document (Page w)) (nums : list Z) :
  (forall n, In n nums -> exists img, page_image w doc n = Ok img) ->
  exists imgs, Forall2 (fun n img => page_image w doc n = Ok img) nums imgs.
Proof.
  induction nums as [|n nums IH]; intros H.
  - exists []. constructor.
  - destruct (H n) as [img Hi]; [now left|].
    destruct IH as [imgs Hs]; [intros m Hm; apply H; now right|].
    exists (img :: imgs). now constructor.
Qed.

Lemma render_loop_length (w : World) (doc : Document (Page w)) (nums : list Z) :
  forall images loaded result,
    fst (render_loop w doc nums images loaded) = Ok result ->
    length result = length images + length nums.
Proof.
  induction nums as [|n nums IH]; intros images loaded result H; simpl in *.
  - injection H as <-. lia.
  - destruct (load_page doc n) as [page|e]; [|discriminate].
    destruct (render_png w page) as [img|e]; [|discriminate].
    apply IH in H. rewrite length_app in H. simpl in H. lia.
Qed.

Lemma render_loop_trace (w : World) (doc : Document (Page w)) (nums : list Z) :
  forall images loaded n,
    In n (snd (render_loop w doc nums images loaded)) -> In n (loaded ++ nums).
Proof.
  induction nums as [|m nums IH]; intros images loaded n H; simpl in *.
  - now rewrite app_nil_r.
  - assert (In n (loaded ++ [m]) -> In n (loaded ++ m :: nums)) as K.
    { rewrite !in_app_iff. simpl. tauto. }
    destruct (load_page doc m) as [page|e]; [|now apply K].
    destruct (render_png w page) as [img|e]; [|now apply K].
    apply IH in H. now rewrite <- app_assoc in H.
Qed.

(** C3.  With a maximum that is a count: for a PDF that decodes and
    opens, whose page count exceeds the maximum, and whose pages below
    the maximum load and render, [pdf_to_images] returns exactly
    [max_pages] images, the image at position [n] being that of page [n],
    and the pages handed to [load_page] are the pages 0 to
    [max_pages - 1]; for every input, a list of images returned has at
    most [max_pages] images, and no page from [max_pages] on is ever
    loaded. *)
Theorem pdf_to_images_stops_at_maximum (w : World) (max_pages : Z) :
  (0 <= max_pages)%Z ->
  (forall pdf_data pdf_stream doc,
     b64decode w pdf_data = Ok pdf_stream ->
     fitz_open w pdf_stream = Ok doc ->
     (max_pages < Z.of_nat (page_count doc))%Z ->
     (forall n, (0 <= n < max_pages)%Z ->
        exists img, page_image w doc n = Ok img) ->
     exists images,
       pdf_to_images w pdf_data max_pages = Ok images /\
       Z.of_nat (length images) = max_pages /\
       Forall2 (fun n img => page_image w doc n = Ok img)
               (py_range max_pages) images /\
       pages_loaded w pdf_data max_pages = py_range max_pages) /\
  (forall pdf_data images,
     pdf_to_images w pdf_data max_pages = Ok images ->
     (Z.of_nat (length images) <= max_pages)%Z) /\
  (forall pdf_data n,
     In n (pages_loaded w pdf_data max_pages) -> (0 <= n < max_pages)%Z).
Proof.
  intros Hmax. split; [|split].
  - intros pdf_data pdf_stream doc Hd Ho Hcount Hpages.
    destruct (@images_exist w doc (py_range max_pages)) as [images Himgs].
    { intros n Hn. apply Hpages. now apply in_py_range. }
    assert (pdf_to_images_run w pdf_data max_pages
            = (Ok images, py_range max_pages)) as Hrun.
    { unfold pdf_to_images_run. rewrite Hd, Ho.
      replace (Z.min (Z.of_nat (page_count doc)) max_pages) with max_pages by lia.
      now rewrite (@render_loop_ok w doc _ _ Himgs). }
    exists images. unfold pdf_to_images, pages_loaded. rewrite Hrun. cbn [fst snd].
    split; [reflexivity|]. split; [|split; [assumption|reflexivity]].
    rewrite <- (Forall2_length Himgs). now apply length_py_range.
  - intros pdf_data images. unfold pdf_to_images, pdf_to_images_run.
    destruct (b64decode w pdf_data) as [pdf_stream|e]; [|discriminate].
    destruct (fitz_open w pdf_stream) as [doc|e]; [|discriminate].
    cbn [fst]. intros H.
    destruct (fst (render_loop w doc _ [] [])) as [result|e] eqn:E;
      [|discriminate].
    injection H as <-. apply render_loop_length in E. rewrite E. simpl.
    unfold py_range. rewrite length_map, length_seq. lia.
  - intros pdf_data n. unfold pages_loaded, pdf_to_images_run.
    destruct (b64decode w pdf_data) as [pdf_stream|e]; [|contradiction].
    destruct (fitz_open w pdf_stream) as [doc|e]; [|contradiction].
    cbn [snd]. intros H. apply render_loop_trace in H. simpl in H.
    apply in_py_range in H. lia.
Qed.

Lemma pdf_to_images_stops_at_maximum_witness :
  exists images,
    pdf_to_images (sample_world 12 (ok_response [])) [] default_max_pages
      = Ok images /\
    Z.of_nat (length images) = default_max_pages /\
    Forall2 (fun n img => page_image (sample_world 12 (ok_response []))
                            (sample_document 12) n = Ok img)
            (py_range default_max_pages) images /\
    pages_loaded (sample_world 12 (ok_response [])) [] default_max_pages
      = py_range default_max_pages.
Proof.
  apply (proj1 (@pdf_to_images_stops_at_maximum
                  (sample_world 12 (ok_response [])) default_max_pages
                  ltac:(unfold default_max_pages; lia))
               [] [] (sample_document 12)).
  - reflexivity.
  - reflexivity.
  - unfold default_max_pages. simpl. lia.
  - intros n Hn. unfold default_max_pages in Hn.
    exists (lit "page" ++ str_of_int n). unfold page_image. cbn.
    destruct (Z.leb_spec 0 n); [|lia].
    destruct (Z.ltb_spec n 12); [|lia]. reflexivity.
Defined.

Example sample_images :
  pdf_to_images (sample_world 12 (ok_response [])) [] 3
  = Ok [lit "page0"; lit "page1"; lit "page2"].
Proof. vm_compute. reflexivity. Qed.

(** C4, as amended.  When the decoded bytes cannot be opened as a PDF,
    [pdf_to_images] raises the wrapped error and loads no page; a PDF
    that opens with no page at all is no error: the result is the empty
    list of images. *)
Theorem pdf_to_images_corrupt_or_empty
    (w : World) (pdf_data : str) (max_pages : Z) (pdf_stream : bytes) :
  b64decode w pdf_data = Ok pdf_stream ->
  (forall e, fitz_open w pdf_stream = Raise e ->
     pdf_to_images w pdf_data max_pages
       = Raise (lit "Error converting PDF to images: " ++ e) /\
     pages_loaded w pdf_data max_pages = []) /\
  (forall doc, fitz_open w pdf_stream = Ok doc -> page_count doc = 0 ->
     pdf_to_images w pdf_data max_pages = Ok [] /\
     pages_loaded w pdf_data max_pages = []).
Proof.
  intros Hd. unfold pdf_to_images, pages_loaded, pdf_to_images_run.
  rewrite Hd. split.
  - intros e He. rewrite He. split; reflexivity.
  - intros doc Ho Hz. rewrite Ho, Hz.
    assert (py_range (Z.min (Z.of_nat 0) max_pages) = []) as ->.
    { unfold py_range. replace (Z.to_nat _) with 0 by lia. reflexivity. }
    split; reflexivity.
Qed.

Lemma pdf_to_images_corrupt_or_empty_witness :
  pdf_to_images broken_world [] default_max_pages
    = Raise (lit "Error converting PDF to images: cannot open broken document")
  /\ pdf_to_images (sample_world 0 (ok_response [])) [] default_max_pages = Ok [].
Proof.
  split.
  - apply (proj1 (@pdf_to_images_corrupt_or_empty
                    broken_world [] default_max_pages [] eq_refl)
                 (lit "cannot open broken document") eq_refl).
  - apply (proj2 (@pdf_to_images_corrupt_or_empty
                    (sample_world 0 (ok_response [])) [] default_max_pages []
                    eq_refl)
                 (sample_document 0) eq_refl eq_refl).
Defined.

(** C4, as stated, fails on a PDF without pages: the document opens, the
    loop runs over no page, and the call returns normally. *)
Lemma zero_page_pdf_counterexample :
  fitz_open (sample_world 0 (ok_response [])) [] = Ok (sample_document 0) /\
  page_count (sample_document 0) = 0 /\
  pdf_to_images (sample_world 0 (ok_response [])) [] default_max_pages = Ok [].
Proof. repeat split. Qed.

(** ** The system instruction *)


(** C6.  The instruction of the advanced mode is the instruction of the
    basic mode followed by a non-empty addition; the addition names the
    five further categories, none of which the basic instruction names. *)
Theorem advanced_extends_basic (pdf_data : str) :
  create_extraction_prompt pdf_data (JStr (lit "advanced"))
    = create_extraction_prompt pdf_data (JStr (lit "basic")) ++ advanced_addition
  /\ advanced_addition <> []
  /\ length (create_extraction_prompt pdf_data (JStr (lit "basic")))
       < length (create_extraction_prompt pdf_data (JStr (lit "advanced")))
  /\ create_extraction_prompt pdf_data (JStr (lit "basic")) = basic_template
  /\ Forall (fun category =>
               contains category advanced_addition = true /\
               contains category basic_template = false)
            added_categories.
Proof.
  split; [reflexivity|]. split; [discriminate|].
  split; [vm_compute; lia|]. split; [reflexivity|].
  repeat constructor; vm_compute; reflexivity.
Qed.



(** ** The request *)

Lemma append_loop (images : list str) (content : list json) :
  fold_left (fun content img_base64 => content ++ [image_block img_base64])
            images content
  = content ++ map image_block images.
Proof.
  revert content. induction images as [|img images IH]; intros content; simpl.
  - now rewrite app_nil_r.
  - now rewrite IH, <- app_assoc.
Qed.

Lemma build_content_eq (pdf_images : list str) :
  build_content pdf_images = map image_block pdf_images ++ [text_block].
Proof. unfold build_content. now rewrite append_loop. Qed.

(** C7.  The content of the request is one image block per page image,
    in the order of the images, each a base64 source of media type
    image/png, and then one text block; the text block is a constant,
    the same for every list of images and every system instruction. *)
Theorem content_is_images_then_text (pdf_images : list str) :
  build_content pdf_images = map image_block pdf_images ++ [text_block] /\
  length (build_content pdf_images) = S (length pdf_images) /\
  (forall (n : nat) img, nth_error pdf_images n = Some img ->
     nth_error (build_content pdf_images) n
       = Some (JDict [ (lit "type", JStr (lit "image"));
                       (lit "source",
                        JDict [ (lit "type", JStr (lit "base64"));
                                (lit "media_type", JStr (lit "image/png"));
                                (lit "data", JStr img) ]) ])) /\
  nth_error (build_content pdf_images) (length pdf_images)
    = Some (JDict [ (lit "type", JStr (lit "text"));
                    (lit "text", JStr directive) ]) /\
  (forall prompt,
     py_getitem_str (request_payload prompt pdf_images) (lit "messages")
       = Ok (user_messages (map image_block pdf_images ++ [text_block]))).
Proof.
  pose proof (build_content_eq pdf_images) as E.
  split; [exact E|]. rewrite E. split; [|split; [|split]].
  - rewrite length_app, length_map. simpl. lia.
  - intros n img Hn. rewrite nth_error_app1.
    + now rewrite nth_error_map, Hn.
    + rewrite length_map. apply nth_error_Some. congruence.
  - rewrite nth_error_app2; rewrite length_map; [|lia].
    now rewrite Nat.sub_diag.
  - intros prompt. unfold request_payload. rewrite E. reflexivity.
Qed.

Lemma content_is_images_then_text_witness :
  nth_error (build_content [lit "iVBORw0KGgo="; lit "AAAA"]) 1
  = Some (image_block (lit "AAAA")).
Proof.
  apply (proj1 (proj2 (proj2 (content_is_images_then_text
                                [lit "iVBORw0KGgo="; lit "AAAA"])))
               1 (lit "AAAA")).
  reflexivity.
Defined.

(** C8.  The payload is a function of the system instruction and the
    image list alone: equal inputs give equal payloads, and the payload
    has the five keys of [create_message] and nothing else, with the
    model, the token budget and the temperature constant. *)
Theorem request_payload_deterministic
    (prompt1 prompt2 : str) (images1 images2 : list str) :
  prompt1 = prompt2 -> images1 = images2 ->
  request_payload prompt1 images1 = request_payload prompt2 images2 /\
  request_payload prompt1 images1
    = JDict [ (lit "model", JStr (lit "claude-3-7-sonnet-20250219"));
              (lit "system", JStr prompt1);
              (lit "messages",
               JList [ JDict [ (lit "role", JStr (lit "user"));
                               (lit "content",
                                JList (map image_block images1 ++ [text_block])) ] ]);
              (lit "max_tokens", JInt 4000);
              (lit "temperature", JInt 0) ] /\
  keys (request_payload prompt1 images1)
    = [ lit "model"; lit "system"; lit "messages"; lit "max_tokens";
        lit "temperature" ].
Proof.
  intros -> ->. split; [reflexivity|]. split; [|reflexivity].
  unfold request_payload, message_payload, user_messages.
  now rewrite build_content_eq.
Qed.

Lemma request_payload_deterministic_witness :
  request_payload (lit "rules") [lit "AAAA"]
    = request_payload (lit "rules") [lit "AAAA"] /\
  request_payload (lit "rules") [lit "AAAA"]
    = JDict [ (lit "model", JStr (lit "claude-3-7-sonnet-20250219"));
              (lit "system", JStr (lit "rules"));
              (lit "messages",
               JList [ JDict [ (lit "role", JStr (lit "user"));
                               (lit "content",
                                JList (map image_block [lit "AAAA"] ++ [text_block])) ] ]);
              (lit "max_tokens", JInt 4000);
              (lit "temperature", JInt 0) ] /\
  keys (request_payload (lit "rules") [lit "AAAA"])
    = [ lit "model"; lit "system"; lit "messages"; lit "max_tokens";
        lit "temperature" ].
Proof.
  apply (@request_payload_deterministic
           (lit "rules") (lit "rules") [lit "AAAA"] [lit "AAAA"]);
    reflexivity.
Defined.

(** ** A reply that is the JSON literal null *)

Example null_reply_selected : select_json_str (JStr null_reply) = Ok (lit "null").
Proof. vm_compute. reflexivity. Qed.

Example null_body_decoded :
  Json.loads sample_headroom null_body = Ok (reply null_reply).
Proof. vm_compute. reflexivity. Qed.

(** C10.  When the text of the first content element yields the
    substring null, the extraction returns the pair of no value and no
    error, and the page, which tests the error alone, takes the branch
    that displays a result. *)
Theorem null_reply_is_reported_as_success
    (w : World) (pdf_base64 key prompt : str) (images : list str)
    (response content first reply_text : json) (n : Z) :
  pdf_to_images w pdf_base64 default_max_pages = Ok images ->
  create_message w (new_client key) prompt (user_messages (build_content images))
                 default_model default_max_tokens default_temperature
    = Ok response ->
  py_in (lit "content") response = Ok true ->
  py_getitem_str response (lit "content") = Ok content ->
  py_len content = Ok n -> (0 < n)%Z ->
  py_getitem_int content 0 = Ok first ->
  py_getitem_str first (lit "text") = Ok reply_text ->
  select_json_str reply_text = Ok (lit "null") ->
  extract_data_with_direct_client w pdf_base64 key prompt = (JNull, None) /\
  show (extract_data_with_direct_client w pdf_base64 key prompt)
    = ShowResult JNull.
Proof.
  intros Hi Hm Hin Hc Hl Hn Hf Ht Hs.
  assert (extract_data_with_direct_client w pdf_base64 key prompt = (JNull, None))
    as E; [|now rewrite E].
  unfold extract_data_with_direct_client. rewrite Hi. cbn [bind]. rewrite Hm.
  cbn [bind]. unfold process_response.
  rewrite Hin. cbn [bind]. rewrite Hc. cbn [bind]. rewrite Hl. cbn [bind].
  destruct (Z.ltb_spec 0 n); [|lia].
  rewrite Hf. cbn [bind]. rewrite Ht. cbn [bind]. rewrite Hs. reflexivity.
Qed.

Lemma null_reply_is_reported_as_success_witness :
  extract_data_with_direct_client
    (sample_world 1 (ok_response null_body)) [] [] [] = (JNull, None) /\
  show (extract_data_with_direct_client
          (sample_world 1 (ok_response null_body)) [] [] [])
    = ShowResult JNull.
Proof.
  apply (@null_reply_is_reported_as_success
           (sample_world 1 (ok_response null_body)) [] [] []
           [lit "page0"] (reply null_reply)
           (JList [ JDict [ (lit "type", JStr (lit "text"));
                            (lit "text", JStr null_reply) ] ])
           (JDict [ (lit "type", JStr (lit "text"));
                    (lit "text", JStr null_reply) ])
           (JStr null_reply) 1).
  - vm_compute. reflexivity.
  - vm_compute. reflexivity.
  - vm_compute. reflexivity.
  - vm_compute. reflexivity.
  - vm_compute. reflexivity.
  - lia.
  - vm_compute. reflexivity.
  - vm_compute. reflexivity.
  - vm_compute. reflexivity.
Defined.

(** ** The decoder uses up no fuel *)

Ltac crunch :=
  repeat match goal with
  | H : Raise _ = Raise _ |- _ => injection H as <-
  | H : Ok _ = Raise _ |- _ => discriminate H
  | H : context [bind ?c _] |- _ => destruct c eqn:?; cbn [bind] in H
  | H : context [match ?x with _ => _ end] |- _ => destruct x eqn:?
  end.

Ltac crunch_ok :=
  repeat match goal with
  | H : Ok _ = Ok _ |- _ => injection H as <- <-
  | H : Ok ?p = Ok _ |- _ => is_var p; injection H as ->
  | H : Some _ = Some _ |- _ => injection H as <- <-
  | H : (_, _) = (_, _) |- _ => injection H as <- <-
  | H : Json.Value _ _ = Json.Value _ _ |- _ => injection H as <- <-
  | H : Raise _ = Ok _ |- _ => discriminate H
  | H : None = Some _ |- _ => discriminate H
  | H : Json.NoValue = Json.Value _ _ |- _ => discriminate H
  | H : Json.Failure _ = Json.Value _ _ |- _ => discriminate H
  | H : context [bind ?c _] |- _ => destruct c as [[? ?]|?] eqn:?; cbn [bind fst snd] in H
  | H : context [match ?x with _ => _ end] |- _ => destruct x eqn:?
  end.

Lemma skip_ws_length (s : str) : length (Json.skip_ws s) <= length s.
Proof.
  induction s as [|c s IH]; simpl; [lia|].
  destruct (Json.is_ws c); simpl; lia.
Qed.

Lemma decode_error_raises {A : Type} (room : nat) (doc msg rest : str) (a : A) :
  Json.decode_error room doc msg rest <> Ok a.
Proof. destruct room as [|[|[|room]]]; discriminate. Qed.

Ltac no_value :=
  match goal with
  | H : Json.decode_error _ _ _ _ = Ok _ |- _ =>
      exfalso; exact (@decode_error_raises _ _ _ _ _ _ H)
  end.

Lemma scan_string_length (n : nat) :
  forall room doc start s acc t rest, length s <= n ->
    Json.scan_string room doc start s acc = Ok (t, rest) ->
    length rest < length s.
Proof.
  induction n as [|n IH]; intros room doc start s acc t rest Hlen H.
  - destruct s; [|simpl in Hlen; lia].
    cbn [Json.scan_string] in H. no_value.
  - destruct s as [|c s1]; cbn [Json.scan_string] in H; [no_value|].
    crunch_ok; subst; try no_value;
      try match goal with
      | H : Json.scan_string _ _ _ ?s _ = Ok _ |- _ =>
          apply IH in H; [|simpl in Hlen |- *; lia]
      end;
      simpl in *; solve [lia | congruence].
Qed.

Lemma span_digits_length (s : str) :
  length (snd (Json.span_digits s)) <= length s.
Proof.
  induction s as [|c s IH]; simpl; [lia|].
  destruct (Json.is_digit c); simpl; [|lia].
  destruct (Json.span_digits s); simpl in *; lia.
Qed.

Lemma scan_int_part_length (s ip rest : str) :
  Json.scan_int_part s = Some (ip, rest) -> length rest < length s.
Proof.
  unfold Json.scan_int_part. intros H.
  destruct s as [|c s]; [discriminate|].
  pose proof (span_digits_length s) as L.
  destruct (Json.span_digits s); crunch_ok; simpl in *; lia.
Qed.

Lemma scan_frac_length (s : str) : length (snd (Json.scan_frac s)) <= length s.
Proof.
  unfold Json.scan_frac. destruct s as [|c s]; simpl; [lia|].
  pose proof (span_digits_length s) as L.
  destruct (c =? 46)%N; simpl; [|lia].
  destruct (Json.span_digits s) as [[|d ds] r]; simpl in *; lia.
Qed.

Lemma scan_exp_length (s : str) : length (snd (Json.scan_exp s)) <= length s.
Proof.
  unfold Json.scan_exp. destruct s as [|c s]; simpl; [lia|].
  destruct ((c =? 101) || (c =? 69))%N; simpl; [|lia].
  destruct s as [|d t]; simpl; [lia|].
  pose proof (span_digits_length t) as Lt.
  pose proof (span_digits_length (d :: t)) as Ld.
  destruct ((d =? 45) || (d =? 43))%N.
  - destruct (Json.span_digits t) as [[|x ds] r]; simpl in *; lia.
  - destruct (Json.span_digits (d :: t)) as [[|x ds] r]; simpl in *; lia.
Qed.

Lemma scan_number_length (s rest : str) (v : json) :
  Json.scan_number s = Json.Value v rest -> length rest < length s.
Proof.
  unfold Json.scan_number. intros H.
  assert (forall s1 ip s2, length s1 <= length s ->
            Json.scan_int_part s1 = Some (ip, s2) ->
            length (snd (Json.scan_exp (snd (Json.scan_frac s2)))) < length s) as K.
  { intros s1 ip s2 L1 Hi. apply scan_int_part_length in Hi.
    pose proof (scan_frac_length s2).
    pose proof (scan_exp_length (snd (Json.scan_frac s2))). lia. }
  destruct s as [|c s'].
  - simpl in H. discriminate.
  - destruct (c =? 45)%N.
    + destruct (Json.scan_int_part s') as [[ip s2]|] eqn:Hi; [|discriminate].
      specialize (K s' ip s2 ltac:(simpl; lia) Hi).
      destruct (Json.scan_frac s2) as [fr s3]. cbn [snd] in K.
      destruct (Json.scan_exp s3) as [ex s4]. cbn [snd] in K.
      crunch_ok; exact K.
    + destruct (Json.scan_int_part (c :: s')) as [[ip s2]|] eqn:Hi; [|discriminate].
      specialize (K (c :: s') ip s2 ltac:(simpl; lia) Hi).
      destruct (Json.scan_frac s2) as [fr s3]. cbn [snd] in K.
      destruct (Json.scan_exp s3) as [ex s4]. cbn [snd] in K.
      crunch_ok; exact K.
Qed.

Lemma keyword_length (word s rest : str) :
  word <> [] -> Json.keyword word s = Some rest -> length rest < length s.
Proof.
  unfold Json.keyword. intros Hw H.
  destruct (startswith s word) eqn:E; [|discriminate].
  injection H as <-. apply startswith_inv in E.
  rewrite E at 2. rewrite length_app.
  destruct word; [congruence|simpl; lia].
Qed.

Lemma scan_constant_length (room : nat) (s rest : str) (v : json) :
  Json.scan_constant room s = Json.Value v rest -> length rest < length s.
Proof.
  unfold Json.scan_constant, Json.parse_constant. intros H.
  repeat match goal with
  | H : context [match Json.keyword ?w s with _ => _ end] |- _ =>
      let E := fresh "E" in
      destruct (Json.keyword w s) eqn:E;
      [apply keyword_length in E; [|discriminate];
       try (destruct room; [discriminate H|]);
       injection H as <- <-; exact E|]
  end.
  now apply scan_number_length in H.
Qed.

Ltac ws_facts :=
  repeat match goal with
  | H : context [Json.skip_ws ?x] |- _ =>
      lazymatch goal with
      | _ : length (Json.skip_ws x) <= length x |- _ => fail
      | _ => pose proof (skip_ws_length x)
      end
  end.

Ltac length_facts IHo IHi IHm :=
  repeat match goal with
  | H : Json.skip_ws ?x = _ |- _ =>
      let L := fresh "L" in
      pose proof (skip_ws_length x) as L; rewrite H in L; clear H
  | H : Json.scan_string _ _ _ _ _ = Ok _ |- _ =>
      eapply scan_string_length in H; [|reflexivity]
  | H : Json.scan_constant _ _ = Json.Value _ _ |- _ =>
      apply scan_constant_length in H
  | H : Json.scan_once _ _ _ _ _ = Ok _ |- _ => apply IHo in H
  | H : Json.scan_items _ _ _ _ _ _ = Ok _ |- _ => apply IHi in H
  | H : Json.scan_members _ _ _ _ _ _ = Ok _ |- _ => apply IHm in H
  end.

(** Every value read takes at least one character. *)
Lemma scan_length (fuel : nat) :
  (forall top depth doc s v rest,
     Json.scan_once fuel top depth doc s = Ok (v, rest) ->
     length rest < length s) /\
  (forall top depth doc s acc v rest,
     Json.scan_items fuel top depth doc s acc = Ok (v, rest) ->
     length rest < length s) /\
  (forall top depth doc s acc v rest,
     Json.scan_members fuel top depth doc s acc = Ok (v, rest) ->
     length rest < length s).
Proof.
  induction fuel as [|fuel (IHo & IHi & IHm)].
  - repeat split; intros; cbn in *; discriminate.
  - repeat split.
    + intros top depth doc s v rest H. cbn [Json.scan_once] in H.
      crunch_ok; subst; try no_value;
        length_facts IHo IHi IHm; ws_facts; simpl in *; lia.
    + intros top depth doc s acc v rest H. cbn [Json.scan_items] in H.
      crunch_ok; subst; try no_value;
        length_facts IHo IHi IHm; ws_facts; simpl in *; lia.
    + intros top depth doc s acc v rest H. cbn [Json.scan_members] in H.
      crunch_ok; subst; try no_value;
        length_facts IHo IHi IHm; ws_facts; simpl in *; lia.
Qed.

(** The texts of the decoder's own exceptions are not the text that
    stands for the end of the fuel. *)
Lemma text_not_out_of_fuel (msg tail : str) :
  hd 0%N msg <> 111%N -> msg <> [] -> msg ++ tail <> Json.out_of_fuel.
Proof.
  destruct msg as [|c msg]; [congruence|].
  intros Hc _ E. apply Hc. cbn [hd].
  change Json.out_of_fuel with (111%N :: lit "ut of fuel") in E.
  cbn [app] in E. now injection E.
Qed.

Ltac not_out_of_fuel :=
  solve [ apply text_not_out_of_fuel; vm_compute; discriminate
        | vm_compute; discriminate ].

Lemma decode_error_not_out_of_fuel {A : Type} (room : nat)
    (doc msg rest e : str) :
  hd 0%N msg <> 111%N -> msg <> [] ->
  @Json.decode_error A room doc msg rest = Raise e -> e <> Json.out_of_fuel.
Proof.
  intros Hc Hm H. destruct room as [|[|[|room]]]; injection H as <-;
    try not_out_of_fuel.
  now apply text_not_out_of_fuel.
Qed.

Ltac error_not_out_of_fuel :=
  match goal with
  | H : Json.decode_error _ _ _ _ = Raise _ |- _ =>
      solve [eapply decode_error_not_out_of_fuel; [| |exact H];
             vm_compute; discriminate]
  end.

Lemma scan_string_never_exhausts_within (n : nat) :
  forall room doc start s acc e, length s <= n ->
    Json.scan_string room doc start s acc = Raise e -> e <> Json.out_of_fuel.
Proof.
  induction n as [|n IH]; intros room doc start s acc e Hlen H.
  - destruct s; [|simpl in Hlen; lia].
    cbn [Json.scan_string] in H. error_not_out_of_fuel.
  - destruct s as [|c s1]; cbn [Json.scan_string] in H.
    + error_not_out_of_fuel.
    + crunch; subst; try error_not_out_of_fuel;
        (eapply IH; [|eassumption]; simpl in Hlen |- *; lia).
Qed.

Lemma scan_string_never_exhausts (room : nat) (doc start s acc e : str) :
  Json.scan_string room doc start s acc = Raise e -> e <> Json.out_of_fuel.
Proof. apply (@scan_string_never_exhausts_within (length s)). apply le_n. Qed.

Lemma scan_number_never_exhausts (s e : str) :
  Json.scan_number s = Json.Failure e -> e <> Json.out_of_fuel.
Proof.
  unfold Json.scan_number. intros H.
  repeat match type of H with
  | context [let (_, _) := ?x in _] => destruct x
  | context [match ?x with _ => _ end] => destruct x
  end; try discriminate H.
  all: injection H as <-; not_out_of_fuel.
Qed.

Lemma scan_constant_never_exhausts (room : nat) (s e : str) :
  Json.scan_constant room s = Json.Failure e -> e <> Json.out_of_fuel.
Proof.
  unfold Json.scan_constant, Json.parse_constant. intros H.
  repeat match type of H with
  | context [match Json.keyword ?w s with _ => _ end] =>
      destruct (Json.keyword w s);
      [first [ discriminate H
             | destruct room;
               [injection H as <-; not_out_of_fuel|discriminate H] ]|]
  end.
  now apply scan_number_never_exhausts in H.
Qed.

Ltac fuel_facts :=
  repeat match goal with
  | a : (_ * _)%type |- _ => destruct a; cbn [fst snd] in *
  end;
  repeat match goal with
  | H : Json.skip_ws ?x = _ |- _ =>
      let L := fresh "L" in
      pose proof (skip_ws_length x) as L; rewrite H in L; clear H
  | H : Json.scan_string _ _ _ _ _ = Ok _ |- _ =>
      eapply scan_string_length in H; [|reflexivity]
  | H : Json.scan_once ?f _ _ _ _ = Ok _ |- _ =>
      apply (proj1 (scan_length f)) in H
  end.

(** With twice the length of the text and one more, the scanner never
    comes to the end of its fuel. *)
Lemma scan_never_exhausts (fuel : nat) :
  (forall top depth doc s e, 2 * length s + 1 <= fuel ->
     Json.scan_once fuel top depth doc s = Raise e ->
     e <> Json.out_of_fuel) /\
  (forall top depth doc s acc e, 2 * length s + 2 <= fuel ->
     Json.scan_items fuel top depth doc s acc = Raise e ->
     e <> Json.out_of_fuel) /\
  (forall top depth doc s acc e, 2 * length s + 2 <= fuel ->
     Json.scan_members fuel top depth doc s acc = Raise e ->
     e <> Json.out_of_fuel).
Proof.
  induction fuel as [|fuel (IHo & IHi & IHm)].
  - repeat split; intros; lia.
  - repeat split.
    + intros top depth doc s e Hf H. cbn [Json.scan_once] in H.
      crunch; subst; try not_out_of_fuel; try error_not_out_of_fuel;
        first [ eapply scan_string_never_exhausts; eassumption
              | eapply scan_constant_never_exhausts; eassumption
              | eapply IHi; [|eassumption]; fuel_facts; ws_facts; simpl in *; lia
              | eapply IHm; [|eassumption]; fuel_facts; ws_facts; simpl in *; lia ].
    + intros top depth doc s acc e Hf H. cbn [Json.scan_items] in H.
      crunch; subst; try not_out_of_fuel; try error_not_out_of_fuel;
        first [ eapply IHo; [|eassumption]; fuel_facts; ws_facts; simpl in *; lia
              | eapply IHi; [|eassumption]; fuel_facts; ws_facts; simpl in *; lia ].
    + intros top depth doc s acc e Hf H. cbn [Json.scan_members] in H.
      crunch; subst; try not_out_of_fuel; try error_not_out_of_fuel;
        first [ eapply scan_string_never_exhausts; eassumption
              | eapply IHo; [|eassumption]; fuel_facts; ws_facts; simpl in *; lia
              | eapply IHm; [|eassumption]; fuel_facts; ws_facts; simpl in *; lia ].
Qed.

(** [Json.loads] gives itself fuel enough. *)
Lemma loads_fuel_enough (depth : nat) (s : str) :
  Json.loads depth s <> Raise Json.out_of_fuel.
Proof.
  assert ((r <- Json.scan_once (2 * length s + 2) depth depth s
                  (Json.skip_ws s) ;;
           match Json.skip_ws (snd r) with
           | [] => Ok (fst r)
           | rest => Json.decode_error (S (S depth)) s (lit "Extra data") rest
           end) <> Raise Json.out_of_fuel) as K.
  { intros H.
    destruct (Json.scan_once _ _ _ _ _) as [r|e] eqn:E; cbn [bind] in H.
    - destruct (Json.skip_ws (snd r)); [discriminate|].
      refine (@decode_error_not_out_of_fuel _ _ _ _ _ _ _ _ H eq_refl);
        vm_compute; discriminate.
    - injection H as ->.
      eapply (proj1 (scan_never_exhausts _)); [|exact E|reflexivity].
      pose proof (skip_ws_length s). lia. }
  unfold Json.loads. destruct s as [|c s']; [exact K|].
  destruct c as [|p]; [exact K|].
  repeat (destruct p as [p|p|]; try exact K).
  intros H.
  refine (@decode_error_not_out_of_fuel _ _ _ _ _ _ _ _ H eq_refl);
    vm_compute; discriminate.
Qed.

(** ** The HTTP client *)

(** C5, as amended.  Once the server has answered, the guard of
    [create_message] raises exactly when the status differs from 200,
    the other statuses of the 2xx class included, and [create_message]
    then raises the error that carries the status code and the body
    verbatim; for the status 401 the text of the error contains 401;
    with the status 200 the result is what [response.json()] makes of
    the body, its value returned as it is, or its exception. *)
Theorem create_message_checks_status
    (w : World) (self : AnthropicDirectClient) (system : str) (messages : json)
    (model : str) (max_tokens temperature : Z) (response : Response) :
  http_post w (base_url self ++ lit "/messages") (headers self)
            (message_payload system messages model max_tokens temperature)
    = Ok response ->
  (check_status response = Raise (status_error response)
   <-> status_code response <> 200%Z) /\
  (check_status response = Ok tt <-> status_code response = 200%Z) /\
  (status_code response <> 200%Z ->
     create_message w self system messages model max_tokens temperature
       = Raise (status_error response)) /\
  (status_code response = 200%Z ->
     create_message w self system messages model max_tokens temperature
       = response_json response) /\
  (status_code response = 401%Z ->
     contains (lit "401") (status_error response) = true) /\
  status_error response
    = lit "API request failed with status "
        ++ str_of_int (status_code response) ++ lit ": " ++ text response.
Proof.
  intros Hp. unfold create_message. rewrite Hp. cbn [bind].
  unfold check_status.
  destruct (Z.eqb_spec (status_code response) 200) as [E|E]; cbn [negb bind].
  - split; [|split; [|split; [|split; [|split]]]].
    + split; [discriminate|congruence].
    + split; [intros _; exact E|reflexivity].
    + congruence.
    + reflexivity.
    + congruence.
    + reflexivity.
  - split; [|split; [|split; [|split; [|split]]]].
    + split; [intros _; exact E|reflexivity].
    + split; [discriminate|congruence].
    + reflexivity.
    + congruence.
    + intros H. apply contains_occurrence.
      exists (lit "API request failed with status "), (lit ": " ++ text response).
      unfold status_error. now rewrite H.
    + reflexivity.
Qed.

Lemma create_message_checks_status_witness :
  create_message (sample_world 1 (answer 401 (lit "denied")))
                 (new_client (lit "sk-0")) (lit "rules") (user_messages [])
                 default_model default_max_tokens default_temperature
    = Raise (lit "API request failed with status 401: denied") /\
  contains (lit "401") (lit "API request failed with status 401: denied") = true.
Proof.
  pose proof (@create_message_checks_status
                (sample_world 1 (answer 401 (lit "denied")))
                (new_client (lit "sk-0")) (lit "rules") (user_messages [])
                default_model default_max_tokens default_temperature
                (answer 401 (lit "denied")) eq_refl)
    as (_ & _ & Hfail & _ & H401 & _).
  split.
  - apply Hfail. discriminate.
  - apply H401. reflexivity.
Defined.

(** C5, as stated, fails on a success status other than 200: the answer
    201 with a JSON body is refused, where the claim has the decoded
    body returned. *)
Lemma created_status_counterexample :
  http_success 201 = true /\
  response_json (answer 201 (lit "{}")) = Ok (JDict []) /\
  create_message (sample_world 1 (answer 201 (lit "{}")))
                 (new_client (lit "sk-0")) (lit "rules") (user_messages [])
                 default_model default_max_tokens default_temperature
    = Raise (lit "API request failed with status 201: {}").
Proof. repeat split; vm_compute; reflexivity. Qed.

(** ** Sample runs *)

(** Runs of the string methods, with the results of CPython. *)
Example string_methods_run :
  split_nonempty (lit "a--b----c") (lit "--") = [(lit "a"); (lit "b"); []; (lit "c")] /\
  split_nonempty (lit "````") (lit "```") = [[]; (lit "`")] /\
  split_nonempty (lit "`````` x") (lit "```") = [[]; []; (lit " x")] /\
  split_nonempty (lit "abc") (lit "```") = [(lit "abc")] /\
  split_nonempty [] (lit "```") = [[]] /\
  split_nonempty (lit "```json{}````json") (lit "```json") = [[]; (lit "{}`"); []] /\
  split_nonempty (lit "x```y```z") (lit "```") = [(lit "x"); (lit "y"); (lit "z")] /\
  strip (lit "  a b " ++ [10%N]) = (lit "a b") /\
  strip ([11%N] ++ [28%N] ++ lit " x" ++ [12288%N] ++ [8195%N]) = (lit "x") /\
  strip [] = [] /\
  strip ([10%N] ++ [9%N] ++ lit "{}" ++ [13%N] ++ [10%N]) = (lit "{}") /\
  strip ([8203%N] ++ lit "x ") = ([8203%N] ++ lit "x") /\
  contains (lit "```json") (lit "x```json") = true /\
  contains (lit "```") (lit "``x`") = false /\
  contains [] (lit "abc") = true /\
  contains (lit "abc") (lit "ab") = false /\
  str_of_int (0) = (lit "0") /\
  str_of_int (7) = (lit "7") /\
  str_of_int (200) = (lit "200") /\
  str_of_int (401) = (lit "401") /\
  str_of_int (-15) = (lit "-15").
Proof. repeat split; vm_compute; reflexivity. Qed.

(** Runs of the decoder, with the results of CPython 3.11 where the
    scanner has room for a thousand nested arrays and objects. *)
Example decoder_run :
  Json.loads sample_headroom (lit "{" ++ [34%N] ++ lit "a" ++ [34%N] ++ lit ":1}") = Ok (JDict [((lit "a"), JInt 1)]) /\
  Json.loads sample_headroom (lit "null") = Ok (JNull) /\
  Json.loads sample_headroom (lit " [1, true, null, {}, [], " ++ [34%N] ++ lit "x\n\u00e9\ud83d\ude00" ++ [34%N] ++ lit "] ") = Ok (JList [JInt 1; JBool true; JNull; JDict []; JList []; JStr (lit "x" ++ [10%N] ++ [233%N] ++ [128512%N])]) /\
  Json.loads sample_headroom (lit "01") = Raise (lit "Extra data: line 1 column 2 (char 1)") /\
  Json.loads sample_headroom (lit "1.") = Raise (lit "Extra data: line 1 column 2 (char 1)") /\
  Json.loads sample_headroom (lit "-") = Raise (lit "Expecting value: line 1 column 1 (char 0)") /\
  Json.loads sample_headroom (lit "[1,]") = Raise (lit "Expecting value: line 1 column 4 (char 3)") /\
  Json.loads sample_headroom (lit "{" ++ [34%N] ++ lit "a" ++ [34%N] ++ lit ":1," ++ [34%N] ++ lit "a" ++ [34%N] ++ lit ":2," ++ [34%N] ++ lit "b" ++ [34%N] ++ lit ":3}") = Ok (JDict [((lit "a"), JInt 2); ((lit "b"), JInt 3)]) /\
  Json.loads sample_headroom ([34%N] ++ lit "\ud83d" ++ [34%N]) = Ok (JStr [55357%N]) /\
  Json.loads sample_headroom (lit "-0") = Ok (JInt 0) /\
  Json.loads sample_headroom (lit "[") = Raise (lit "Expecting value: line 1 column 2 (char 1)") /\
  Json.loads sample_headroom (lit "{" ++ [34%N] ++ lit "a" ++ [34%N] ++ lit " 1}") = Raise (lit "Expecting ':' delimiter: line 1 column 6 (char 5)") /\
  Json.loads sample_headroom ([34%N] ++ lit "a" ++ [9%N] ++ lit "b" ++ [34%N]) = Raise (lit "Invalid control character at: line 1 column 3 (char 2)") /\
  Json.loads sample_headroom (lit "{" ++ [34%N] ++ lit "k" ++ [34%N] ++ lit ": [false, {" ++ [34%N] ++ lit "n" ++ [34%N] ++ lit ": -12}]}" ++ [10%N]) = Ok (JDict [((lit "k"), JList [JBool false; JDict [((lit "n"), JInt (-12))]])]) /\
  Json.loads sample_headroom [] = Raise (lit "Expecting value: line 1 column 1 (char 0)") /\
  Json.loads sample_headroom ([34%N] ++ lit "abc") = Raise (lit "Unterminated string starting at: line 1 column 1 (char 0)") /\
  Json.loads sample_headroom ([34%N] ++ lit "\x" ++ [34%N]) = Raise (lit "Invalid \escape: line 1 column 2 (char 1)") /\
  Json.loads sample_headroom (lit "{" ++ [34%N] ++ lit "a" ++ [34%N] ++ lit ":1,}") = Raise (lit "Expecting property name enclosed in double quotes: line 1 column 8 (char 7)") /\
  Json.loads sample_headroom (lit "[1 2]") = Raise (lit "Expecting ',' delimiter: line 1 column 4 (char 3)") /\
  Json.loads sample_headroom (lit "{1:2}") = Raise (lit "Expecting property name enclosed in double quotes: line 1 column 2 (char 1)") /\
  Json.loads sample_headroom (lit "nul") = Raise (lit "Expecting value: line 1 column 1 (char 0)") /\
  Json.loads sample_headroom ([34%N] ++ lit "\u12G4" ++ [34%N]) = Raise (lit "Invalid \uXXXX escape: line 1 column 3 (char 2)") /\
  Json.loads sample_headroom ([12%N] ++ lit "1") = Raise (lit "Expecting value: line 1 column 1 (char 0)") /\
  Json.loads sample_headroom (lit "tru") = Raise (lit "Expecting value: line 1 column 1 (char 0)") /\
  Json.loads sample_headroom (lit "[[[]]]") = Ok (JList [JList [JList []]]) /\
  Json.loads sample_headroom (lit "{" ++ [34%N] ++ lit "a" ++ [34%N] ++ lit ":{" ++ [34%N] ++ lit "b" ++ [34%N] ++ lit ":{" ++ [34%N] ++ lit "c" ++ [34%N] ++ lit ":[]}}}  x") = Raise (lit "Extra data: line 1 column 23 (char 22)") /\
  Json.loads sample_headroom (lit "[" ++ [10%N] ++ lit "1," ++ [10%N] ++ lit "  x]") = Raise (lit "Expecting value: line 3 column 3 (char 7)") /\
  Json.loads sample_headroom ([65279%N] ++ lit "{}") = Raise (lit "Unexpected UTF-8 BOM (decode using utf-8-sig): line 1 column 1 (char 0)") /\
  Json.loads sample_headroom ([34%N] ++ lit "\u00e9") = Raise (lit "Invalid \uXXXX escape: line 1 column 3 (char 2)") /\
  Json.loads sample_headroom ([34%N] ++ lit "\ud83d\ude00") = Raise (lit "Invalid \uXXXX escape: line 1 column 9 (char 8)") /\
  Json.loads sample_headroom ([34%N] ++ lit "\ud83d\u0041" ++ [34%N]) = Ok (JStr ([55357%N] ++ lit "A")) /\
  Json.loads sample_headroom (lit "  ") = Raise (lit "Expecting value: line 1 column 3 (char 2)").
Proof. repeat split; vm_compute; reflexivity. Qed.

(** A number with a fraction or an exponent is a [float]. *)
Example decoder_float_run :
  Json.loads sample_headroom (lit "-2.5e3") = Ok (JFloat (lit "-2.5e3")) /\
  Json.loads sample_headroom (lit "1E+2") = Ok (JFloat (lit "1E+2")) /\
  Json.loads sample_headroom (lit "0.5") = Ok (JFloat (lit "0.5")) /\
  Json.loads sample_headroom (lit "NaN") = Ok (JFloat (lit "NaN")) /\
  Json.loads sample_headroom (lit "-Infinity") = Ok (JFloat (lit "-Infinity")) /\
  Json.loads sample_headroom (lit "Infinity") = Ok (JFloat (lit "Infinity")).
Proof. repeat split; vm_compute; reflexivity. Qed.

(** An [int] of more than 4300 digits is refused, its sign not counted;
    a [float] is not. *)
Example decoder_digits_run :
  Json.loads sample_headroom (repeat 49%N 4301) = Raise (lit "Exceeds the limit (4300 digits) for integer string conversion: value has 4301 digits; use sys.set_int_max_str_digits() to increase the limit") /\
  Json.loads sample_headroom (lit "-" ++ repeat 49%N 4301) = Raise (lit "Exceeds the limit (4300 digits) for integer string conversion: value has 4301 digits; use sys.set_int_max_str_digits() to increase the limit") /\
  Json.loads sample_headroom (lit "[" ++ repeat 49%N 4301) = Raise (lit "Exceeds the limit (4300 digits) for integer string conversion: value has 4301 digits; use sys.set_int_max_str_digits() to increase the limit") /\
  Json.loads sample_headroom (repeat 49%N 4301 ++ lit ".5") = Ok (JFloat (repeat 49%N 4301 ++ lit ".5")) /\
  (exists n, Json.loads sample_headroom (repeat 49%N 4300) = Ok (JInt n)).
Proof.
  repeat split; try (vm_compute; reflexivity).
  eexists. vm_compute. reflexivity.
Qed.

(** Runs of the decoder where the interpreter has little room left, with
    the results of CPython 3.11: a nesting deeper than the room, and an
    error met where the exception cannot be built. *)
Example decoder_room_run :
  Json.loads 0 (lit "null") = Ok (JNull) /\
  Json.loads 0 (lit "{" ++ [34%N] ++ lit "a" ++ [34%N] ++ lit ":1}") = Raise (lit "maximum recursion depth exceeded while decoding a JSON object from a unicode string") /\
  Json.loads 1 (lit "{" ++ [34%N] ++ lit "a" ++ [34%N] ++ lit ":1}") = Ok (JDict [((lit "a"), JInt 1)]) /\
  Json.loads 1 (lit "{}`") = Raise (lit "Extra data: line 1 column 3 (char 2)") /\
  Json.loads 0 (lit "{}`") = Raise (lit "maximum recursion depth exceeded while decoding a JSON object from a unicode string") /\
  Json.loads 0 (lit "1") = Ok (JInt 1) /\
  Json.loads 0 ([34%N] ++ lit "a" ++ [34%N]) = Ok (JStr (lit "a")) /\
  Json.loads 0 (lit "[]") = Raise (lit "maximum recursion depth exceeded while decoding a JSON array from a unicode string") /\
  Json.loads 0 (lit "{}") = Raise (lit "maximum recursion depth exceeded while decoding a JSON object from a unicode string") /\
  Json.loads 1 (lit "[]") = Ok (JList []) /\
  Json.loads 1 (lit "[[]]") = Raise (lit "maximum recursion depth exceeded while decoding a JSON array from a unicode string") /\
  Json.loads 2 (lit "[[]]") = Ok (JList [JList []]) /\
  Json.loads 2 (lit "[{" ++ [34%N] ++ lit "a" ++ [34%N] ++ lit ":[]}]") = Raise (lit "maximum recursion depth exceeded while decoding a JSON array from a unicode string") /\
  Json.loads 3 (lit "[{" ++ [34%N] ++ lit "a" ++ [34%N] ++ lit ":[]}]") = Ok (JList [JDict [((lit "a"), JList [])]]) /\
  Json.loads 0 (lit "x") = Raise (lit "maximum recursion depth exceeded") /\
  Json.loads 1 (lit "x") = Raise (lit "maximum recursion depth exceeded while calling a Python object") /\
  Json.loads 2 (lit "x") = Raise (lit "Expecting value: line 1 column 1 (char 0)") /\
  Json.loads 1 (lit "[x") = Raise (lit "maximum recursion depth exceeded while calling a Python object") /\
  Json.loads 2 (lit "[[x") = Raise (lit "Expecting value: line 1 column 3 (char 2)") /\
  Json.loads 0 (lit "1 x") = Raise (lit "maximum recursion depth exceeded while calling a Python object") /\
  Json.loads 1 (lit "1 x") = Raise (lit "Extra data: line 1 column 3 (char 2)") /\
  Json.loads 0 ([34%N] ++ lit "abc") = Raise (lit "maximum recursion depth exceeded while calling a Python object") /\
  Json.loads 1 ([34%N] ++ lit "abc") = Raise (lit "maximum recursion depth exceeded") /\
  Json.loads 2 ([34%N] ++ lit "abc") = Raise (lit "maximum recursion depth exceeded while calling a Python object") /\
  Json.loads 3 ([34%N] ++ lit "abc") = Raise (lit "Unterminated string starting at: line 1 column 1 (char 0)") /\
  Json.loads 3 (lit "[1 2") = Raise (lit "maximum recursion depth exceeded while calling a Python object") /\
  Json.loads 4 (lit "[1 2") = Raise (lit "Expecting ',' delimiter: line 1 column 4 (char 3)") /\
  Json.loads 3 (lit "{" ++ [34%N] ++ lit "a" ++ [34%N] ++ lit " 1}") = Raise (lit "maximum recursion depth exceeded while calling a Python object") /\
  Json.loads 4 (lit "{" ++ [34%N] ++ lit "a" ++ [34%N] ++ lit " 1}") = Raise (lit "Expecting ':' delimiter: line 1 column 6 (char 5)") /\
  Json.loads 0 (lit "NaN") = Raise (lit "maximum recursion depth exceeded while calling a Python object") /\
  Json.loads 1 (lit "NaN") = Ok (JFloat (lit "NaN")) /\
  Json.loads 1 (lit "[NaN]") = Raise (lit "maximum recursion depth exceeded while calling a Python object") /\
  Json.loads 2 (lit "[NaN]") = Ok (JList [JFloat (lit "NaN")]) /\
  Json.loads 0 ([65279%N] ++ lit "1") = Raise (lit "Unexpected UTF-8 BOM (decode using utf-8-sig): line 1 column 1 (char 0)") /\
  Json.loads 0 (repeat 49%N 4301) = Raise (lit "Exceeds the limit (4300 digits) for integer string conversion: value has 4301 digits; use sys.set_int_max_str_digits() to increase the limit").
Proof. repeat split; vm_compute; reflexivity. Qed.

(** * Further properties *)

(** ** The document on its way to the rasterizer *)

Lemma sextet_cases (P : N -> Prop) :
  Forall P (map N.of_nat (seq 0 64)) -> forall v, (v < 64)%N -> P v.
Proof.
  intros H v Hv. rewrite Forall_forall in H. apply H.
  apply in_map_iff. exists (N.to_nat v). split; [lia|]. apply in_seq. lia.
Qed.

Lemma b64_value_char (v : N) :
  (v < 64)%N -> Base64.b64_value (Base64.b64_char v) = Some v.
Proof. revert v. apply sextet_cases. repeat constructor. Qed.

Lemma b64_char_not_pad (v : N) :
  (v < 64)%N -> (Base64.b64_char v =? 61)%N = false.
Proof. revert v. apply sextet_cases. repeat constructor. Qed.

Lemma b64_char_ascii (v : N) :
  (v < 64)%N -> (Base64.b64_char v <? 128)%N = true.
Proof. revert v. apply sextet_cases. repeat constructor. Qed.

(** One character of the alphabet, read by the decoder. *)
Lemma a2b_base64_data (v : N) (s : str) (quad_pos : nat) (leftchar : N)
    (pads : nat) (out : bytes) :
  (v < 64)%N ->
  Base64.a2b_base64 (Base64.b64_char v :: s) quad_pos leftchar pads out =
  match quad_pos with
  | O => Base64.a2b_base64 s 1 v 0 out
  | S O =>
      Base64.a2b_base64 s 2 (v mod 16) 0 (out ++ [leftchar * 4 + v / 16])%N
  | S (S O) =>
      Base64.a2b_base64 s 3 (v mod 4) 0 (out ++ [leftchar * 16 + v / 4])%N
  | _ => Base64.a2b_base64 s 0 0 0 (out ++ [leftchar * 64 + v])%N
  end.
Proof.
  intros Hv. cbn [Base64.a2b_base64].
  now rewrite (b64_char_not_pad Hv), (b64_value_char Hv).
Qed.

Lemma by_triples (P : bytes -> Prop) :
  P [] -> (forall a, P [a]) -> (forall a b, P [a; b]) ->
  (forall a b c rest, P rest -> P (a :: b :: c :: rest)) ->
  forall data, P data.
Proof.
  intros H0 H1 H2 H3.
  refine (fix go data := match data with
                         | [] => H0
                         | [a] => H1 a
                         | [a; b] => H2 a b
                         | a :: b :: c :: rest => H3 a b c rest (go rest)
                         end).
Qed.

Lemma quarter (a : N) : (a < 256 -> a / 4 < 64)%N.
Proof. intros H. apply N.Div0.div_lt_upper_bound. lia. Qed.

Lemma low_two_high_four (a b : N) :
  (b < 256 -> a mod 4 * 16 + b / 16 < 64)%N.
Proof.
  intros H. pose proof (N.mod_upper_bound a 4 ltac:(lia)).
  assert (b / 16 < 16)%N by (apply N.Div0.div_lt_upper_bound; lia). lia.
Qed.

Lemma low_four_high_two (b c : N) :
  (c < 256 -> b mod 16 * 4 + c / 64 < 64)%N.
Proof.
  intros H. pose proof (N.mod_upper_bound b 16 ltac:(lia)).
  assert (c / 64 < 4)%N by (apply N.Div0.div_lt_upper_bound; lia). lia.
Qed.

Lemma low_six (c : N) : (c mod 64 < 64)%N.
Proof. apply N.mod_upper_bound. lia. Qed.

Lemma first_byte (a b : N) :
  (b < 256 -> a / 4 * 4 + (a mod 4 * 16 + b / 16) / 16 = a)%N.
Proof.
  intros H. assert (b / 16 < 16)%N by (apply N.Div0.div_lt_upper_bound; lia).
  rewrite N.div_add_l by lia. rewrite (N.div_small (b / 16) 16) by assumption.
  pose proof (N.div_mod a 4 ltac:(lia)). lia.
Qed.

Lemma second_byte (a b c : N) :
  (b < 256 -> c < 256 ->
   (a mod 4 * 16 + b / 16) mod 16 * 16 + (b mod 16 * 4 + c / 64) / 4 = b)%N.
Proof.
  intros Hb Hc.
  assert (b / 16 < 16)%N by (apply N.Div0.div_lt_upper_bound; lia).
  assert (c / 64 < 4)%N by (apply N.Div0.div_lt_upper_bound; lia).
  rewrite (N.add_comm (a mod 4 * 16)), N.Div0.mod_add.
  rewrite (N.mod_small (b / 16) 16) by assumption.
  rewrite N.div_add_l by lia. rewrite (N.div_small (c / 64) 4) by assumption.
  pose proof (N.div_mod b 16 ltac:(lia)). lia.
Qed.

Lemma third_byte (b c : N) :
  (c < 256 -> (b mod 16 * 4 + c / 64) mod 4 * 64 + c mod 64 = c)%N.
Proof.
  intros Hc.
  assert (c / 64 < 4)%N by (apply N.Div0.div_lt_upper_bound; lia).
  rewrite (N.add_comm (b mod 16 * 4)), N.Div0.mod_add.
  rewrite (N.mod_small (c / 64) 4) by assumption.
  pose proof (N.div_mod c 64 ltac:(lia)). lia.
Qed.

Lemma a2b_base64_b64encode (data : bytes) :
  octets data ->
  forall out, Base64.a2b_base64 (Base64.b64encode data) 0 0 0 out
              = Ok (out ++ data).
Proof.
  induction data as [|a|a b|a b c rest IH] using by_triples; intros Ho out.
  - simpl. now rewrite app_nil_r.
  - inversion Ho as [|? ? Ha _]; subst. cbn [Base64.b64encode].
    rewrite a2b_base64_data by now apply quarter.
    rewrite a2b_base64_data
      by (pose proof (N.mod_upper_bound a 4 ltac:(lia)); lia).
    cbn. replace (a mod 4 * 16 / 16)%N with (a mod 4)%N
      by (now rewrite N.div_mul).
    pose proof (N.div_mod a 4 ltac:(lia)).
    replace (a / 4 * 4 + a mod 4)%N with a by lia. reflexivity.
  - inversion Ho as [|? ? Ha Ho']; subst.
    inversion Ho' as [|? ? Hb _]; subst. cbn [Base64.b64encode].
    rewrite a2b_base64_data by now apply quarter.
    rewrite a2b_base64_data by now apply low_two_high_four.
    rewrite a2b_base64_data
      by (pose proof (N.mod_upper_bound b 16 ltac:(lia)); lia).
    cbn. rewrite (first_byte a Hb).
    pose proof (@second_byte a b 0 Hb ltac:(lia)) as E.
    change (0 / 64)%N with 0%N in E. rewrite N.add_0_r in E. rewrite E.
    now rewrite <- app_assoc.
  - inversion Ho as [|? ? Ha Ho']; subst.
    inversion Ho' as [|? ? Hb Ho'']; subst.
    inversion Ho'' as [|? ? Hc Hrest]; subst. cbn [Base64.b64encode].
    rewrite a2b_base64_data by now apply quarter.
    rewrite a2b_base64_data by now apply low_two_high_four.
    rewrite a2b_base64_data by now apply low_four_high_two.
    rewrite a2b_base64_data by apply low_six.
    rewrite (first_byte a Hb), (second_byte a Hb Hc), (third_byte b Hc).
    rewrite IH by assumption. now rewrite <- !app_assoc.
Qed.

Lemma b64encode_ascii (data : bytes) :
  octets data -> forallb (fun c => (c <? 128)%N) (Base64.b64encode data) = true.
Proof.
  induction data as [|a|a b|a b c rest IH] using by_triples; intros Ho.
  - reflexivity.
  - inversion Ho as [|? ? Ha _]; subst. cbn [Base64.b64encode forallb].
    rewrite !b64_char_ascii; [reflexivity| |now apply quarter].
    pose proof (N.mod_upper_bound a 4 ltac:(lia)). lia.
  - inversion Ho as [|? ? Ha Ho']; subst.
    inversion Ho' as [|? ? Hb _]; subst. cbn [Base64.b64encode forallb].
    rewrite !b64_char_ascii;
      [reflexivity| |now apply low_two_high_four|now apply quarter].
    pose proof (N.mod_upper_bound b 16 ltac:(lia)). lia.
  - inversion Ho as [|? ? Ha Ho']; subst.
    inversion Ho' as [|? ? Hb Ho'']; subst.
    inversion Ho'' as [|? ? Hc Hrest]; subst. cbn [Base64.b64encode forallb].
    rewrite !b64_char_ascii, IH;
      [reflexivity|assumption|apply low_six|now apply low_four_high_two
      |now apply low_two_high_four|now apply quarter].
Qed.

(** X1.  The text that [get_pdf_as_base64] makes of an uploaded file is
    decoded by the first step of [pdf_to_images] to the bytes of the
    file: encoding and decoding are inverse on every sequence of bytes. *)
Theorem uploaded_bytes_reach_rasterizer
    (ui : Ui) (w : World) (file_bytes : bytes) :
  octets file_bytes ->
  temp_file ui file_bytes = Ok file_bytes ->
  Base64.b64decode (Base64.b64encode file_bytes) = Ok file_bytes /\
  exists pdf_base64,
    get_pdf_as_base64 ui file_bytes = Ok pdf_base64 /\
    b64decode (with_base64 w) pdf_base64 = Ok file_bytes.
Proof.
  intros Ho Hf.
  assert (Base64.b64decode (Base64.b64encode file_bytes) = Ok file_bytes) as E.
  { unfold Base64.b64decode. rewrite b64encode_ascii by assumption.
    now rewrite a2b_base64_b64encode. }
  split; [exact E|]. exists (Base64.b64encode file_bytes). split; [|exact E].
  unfold get_pdf_as_base64. now rewrite Hf.
Qed.

Lemma uploaded_bytes_reach_rasterizer_witness :
  Base64.b64decode (Base64.b64encode [37; 80; 68; 70; 45]%N)
    = Ok [37; 80; 68; 70; 45]%N /\
  exists pdf_base64,
    get_pdf_as_base64 sample_ui [37; 80; 68; 70; 45]%N = Ok pdf_base64 /\
    b64decode (with_base64 broken_world) pdf_base64 = Ok [37; 80; 68; 70; 45]%N.
Proof.
  apply (@uploaded_bytes_reach_rasterizer sample_ui broken_world
           [37; 80; 68; 70; 45]%N).
  - repeat constructor.
  - reflexivity.
Defined.

(** ** The rasterizer, further *)

Lemma py_range_split (k m : Z) :
  (0 <= k < m)%Z ->
  exists tail, py_range m = py_range k ++ k :: tail.
Proof.
  intros H. unfold py_range.
  replace (Z.to_nat m) with (Z.to_nat k + S (Z.to_nat (m - k - 1)))%nat by lia.
  rewrite seq_app, map_app. simpl.
  replace (Z.of_nat (Z.to_nat k)) with k by lia. eauto.
Qed.

Lemma render_loop_app (w : World) (doc : Document (Page w))
    (done : list Z) (imgs : list str) :
  Forall2 (fun n img => page_image w doc n = Ok img) done imgs ->
  forall nums images loaded,
    render_loop w doc (done ++ nums) images loaded
    = render_loop w doc nums (images ++ imgs) (loaded ++ done).
Proof.
  induction 1 as [|n img done imgs Hn _ IH]; intros nums images loaded; simpl.
  - now rewrite !app_nil_r.
  - unfold page_image in Hn.
    destruct (load_page doc n) as [page|e]; cbn [bind] in Hn; [|discriminate].
    rewrite Hn, IH, <- !app_assoc. reflexivity.
Qed.

(** X2.  A PDF with no more pages than the maximum, whose pages all load
    and render, gives one image per page, all of them, in page order. *)
Theorem pdf_to_images_renders_every_page
    (w : World) (pdf_data : str) (max_pages : Z)
    (pdf_stream : bytes) (doc : Document (Page w)) :
  b64decode w pdf_data = Ok pdf_stream ->
  fitz_open w pdf_stream = Ok doc ->
  (Z.of_nat (page_count doc) <= max_pages)%Z ->
  (forall n, (0 <= n < Z.of_nat (page_count doc))%Z ->
     exists img, page_image w doc n = Ok img) ->
  exists images,
    pdf_to_images w pdf_data max_pages = Ok images /\
    length images = page_count doc /\
    Forall2 (fun n img => page_image w doc n = Ok img)
            (py_range (Z.of_nat (page_count doc))) images /\
    pages_loaded w pdf_data max_pages = py_range (Z.of_nat (page_count doc)).
Proof.
  intros Hd Ho Hmax Hpages.
  destruct (@images_exist w doc (py_range (Z.of_nat (page_count doc))))
    as [images Himgs].
  { intros n Hn. apply Hpages. now apply in_py_range. }
  exists images. unfold pdf_to_images, pages_loaded, pdf_to_images_run.
  rewrite Hd, Ho.
  replace (Z.min (Z.of_nat (page_count doc)) max_pages)
    with (Z.of_nat (page_count doc)) by lia.
  rewrite (@render_loop_ok w doc _ _ Himgs). cbn [fst snd try_except app].
  split; [reflexivity|]. split; [|split; [assumption|reflexivity]].
  rewrite <- (Forall2_length Himgs). unfold py_range.
  rewrite length_map, length_seq. lia.
Qed.

Lemma pdf_to_images_renders_every_page_witness :
  exists images,
    pdf_to_images (sample_world 3 (ok_response [])) [] default_max_pages
      = Ok images /\
    length images = 3 /\
    Forall2 (fun n img => page_image (sample_world 3 (ok_response []))
                            (sample_document 3) n = Ok img)
            (py_range 3) images /\
    pages_loaded (sample_world 3 (ok_response [])) [] default_max_pages
      = py_range 3.
Proof.
  apply (@pdf_to_images_renders_every_page
           (sample_world 3 (ok_response [])) [] default_max_pages
           [] (sample_document 3)).
  - reflexivity.
  - reflexivity.
  - unfold default_max_pages. simpl. lia.
  - intros n Hn. simpl in Hn.
    exists (lit "page" ++ str_of_int n). unfold page_image. cbn.
    destruct (Z.leb_spec 0 n); [|lia].
    destruct (Z.ltb_spec n 3); [|lia]. reflexivity.
Defined.

(** X3.  When the pages before page [k] load and render and page [k]
    does not, [pdf_to_images] raises the wrapped error of page [k]: the
    images made so far are dropped, and no page after [k] is loaded. *)
Theorem pdf_to_images_stops_at_first_failure
    (w : World) (pdf_data : str) (max_pages k : Z)
    (pdf_stream : bytes) (doc : Document (Page w)) (e : str) :
  b64decode w pdf_data = Ok pdf_stream ->
  fitz_open w pdf_stream = Ok doc ->
  (0 <= k < Z.min (Z.of_nat (page_count doc)) max_pages)%Z ->
  (forall n, (0 <= n < k)%Z -> exists img, page_image w doc n = Ok img) ->
  page_image w doc k = Raise e ->
  pdf_to_images w pdf_data max_pages = Raise (conversion_prefix ++ e) /\
  pages_loaded w pdf_data max_pages = py_range (k + 1).
Proof.
  intros Hd Ho Hk Hpages Hfail.
  destruct (@images_exist w doc (py_range k)) as [images Himgs].
  { intros n Hn. apply Hpages. now apply in_py_range. }
  destruct (py_range_split Hk) as [tail Ht].
  assert (py_range (k + 1) = py_range k ++ [k]) as Hk1.
  { destruct (@py_range_split k (k + 1) ltac:(lia)) as [tail' Ht'].
    rewrite Ht'. f_equal. f_equal.
    assert (length (py_range (k + 1)) = length (py_range k ++ k :: tail'))
      as L by now rewrite Ht'.
    unfold py_range in L at 1 2.
    rewrite length_app, !length_map, !length_seq in L. simpl in L.
    destruct tail'; [reflexivity|simpl in L; lia]. }
  unfold pdf_to_images, pages_loaded, pdf_to_images_run.
  rewrite Hd, Ho, Ht, (@render_loop_app w doc _ _ Himgs). cbn [render_loop].
  unfold page_image in Hfail.
  destruct (load_page doc k) as [page|e']; cbn [bind] in Hfail.
  - rewrite Hfail. cbn. now rewrite Hk1.
  - injection Hfail as ->. cbn. now rewrite Hk1.
Qed.

Lemma pdf_to_images_stops_at_first_failure_witness :
  pdf_to_images
    {| Page := Z;
       b64decode := fun pdf_data => Ok pdf_data;
       fitz_open := fun _ => Ok (sample_document 5);
       render_png := fun n =>
         if (n =? 2)%Z then Raise (lit "out of memory") else Ok (str_of_int n);
       http_post := fun _ _ _ => Raise [];
       headroom := sample_headroom |}
    [] default_max_pages
    = Raise (lit "Error converting PDF to images: out of memory") /\
  pages_loaded
    {| Page := Z;
       b64decode := fun pdf_data => Ok pdf_data;
       fitz_open := fun _ => Ok (sample_document 5);
       render_png := fun n =>
         if (n =? 2)%Z then Raise (lit "out of memory") else Ok (str_of_int n);
       http_post := fun _ _ _ => Raise [];
       headroom := sample_headroom |}
    [] default_max_pages
    = [0; 1; 2]%Z.
Proof.
  apply (@pdf_to_images_stops_at_first_failure
           {| Page := Z;
              b64decode := fun pdf_data => Ok pdf_data;
              fitz_open := fun _ => Ok (sample_document 5);
              render_png := fun n =>
                if (n =? 2)%Z then Raise (lit "out of memory")
                else Ok (str_of_int n);
              http_post := fun _ _ _ => Raise [];
       headroom := sample_headroom |}
           [] default_max_pages 2 [] (sample_document 5)
           (lit "out of memory")).
  - reflexivity.
  - reflexivity.
  - unfold default_max_pages. simpl. lia.
  - intros n Hn. exists (str_of_int n). unfold page_image. cbn.
    destruct (Z.leb_spec 0 n); [|lia].
    destruct (Z.ltb_spec n 5); [|lia]. cbn.
    destruct (Z.eqb_spec n 2); [lia|reflexivity].
  - reflexivity.
Defined.

(** X4.  With a maximum of zero or less, a PDF that opens gives the
    empty list of images and none of its pages is loaded. *)
Theorem pdf_to_images_without_budget
    (w : World) (pdf_data : str) (max_pages : Z)
    (pdf_stream : bytes) (doc : Document (Page w)) :
  b64decode w pdf_data = Ok pdf_stream ->
  fitz_open w pdf_stream = Ok doc ->
  (max_pages <= 0)%Z ->
  pdf_to_images w pdf_data max_pages = Ok [] /\
  pages_loaded w pdf_data max_pages = [].
Proof.
  intros Hd Ho Hmax. unfold pdf_to_images, pages_loaded, pdf_to_images_run.
  rewrite Hd, Ho.
  assert (py_range (Z.min (Z.of_nat (page_count doc)) max_pages) = []) as ->.
  { unfold py_range. replace (Z.to_nat _) with 0 by lia. reflexivity. }
  split; reflexivity.
Qed.

Lemma pdf_to_images_without_budget_witness :
  pdf_to_images (sample_world 4 (ok_response [])) [] (-1) = Ok [] /\
  pages_loaded (sample_world 4 (ok_response [])) [] (-1) = [].
Proof.
  apply (@pdf_to_images_without_budget
           (sample_world 4 (ok_response [])) [] (-1) [] (sample_document 4));
    [reflexivity|reflexivity|lia].
Defined.

(** ** The extraction, step by step *)

Lemma render_loop_with_post (w : World) post (doc : Document (Page w))
    (nums : list Z) :
  forall images loaded,
    render_loop (with_post w post) doc nums images loaded
    = render_loop w doc nums images loaded.
Proof.
  induction nums as [|n nums IH]; intros images loaded; simpl; [reflexivity|].
  destruct (load_page doc n) as [page|e]; [|reflexivity].
  destruct (render_png w page) as [img|e]; [|reflexivity].
  apply IH.
Qed.

Lemma pdf_to_images_with_post (w : World) post (pdf_data : str) (max_pages : Z) :
  pdf_to_images (with_post w post) pdf_data max_pages
  = pdf_to_images w pdf_data max_pages.
Proof.
  unfold pdf_to_images, pdf_to_images_run. cbn [b64decode fitz_open with_post].
  destruct (b64decode w pdf_data) as [pdf_stream|e]; [|reflexivity].
  destruct (fitz_open w pdf_stream) as [doc|e]; [|reflexivity].
  now rewrite render_loop_with_post.
Qed.

Lemma extract_answered (w : World) (pdf_base64 key prompt : str)
    (response : json) :
  answered w pdf_base64 key prompt response ->
  extract_data_with_direct_client w pdf_base64 key prompt
  = match process_response (headroom w) response with
    | Ok result => result
    | Raise e => (JNull, Some (extraction_prefix ++ e))
    end.
Proof.
  intros (images & Hi & Hm). unfold extract_data_with_direct_client.
  rewrite Hi. cbn [bind]. rewrite Hm. reflexivity.
Qed.

(** X5.  When the rasterizer fails, the extraction returns its error
    behind the prefix of the extraction, whatever the transport would
    have answered: no request depends on it. *)
Theorem rasterizer_failure_ends_extraction
    (w : World) (pdf_base64 key prompt e : str) :
  pdf_to_images w pdf_base64 default_max_pages = Raise e ->
  forall post,
    extract_data_with_direct_client (with_post w post) pdf_base64 key prompt
    = (JNull, Some (extraction_prefix ++ e)).
Proof.
  intros H post. unfold extract_data_with_direct_client.
  now rewrite pdf_to_images_with_post, H.
Qed.

Lemma rasterizer_failure_ends_extraction_witness :
  extract_data_with_direct_client
    (with_post broken_world (fun _ _ _ => Ok (ok_response null_body)))
    [] (lit "sk-0") (lit "rules")
  = (JNull,
     Some (lit "Error with direct Anthropic API call: Error converting PDF to images: cannot open broken document")).
Proof.
  apply (@rasterizer_failure_ends_extraction
           broken_world [] (lit "sk-0") (lit "rules")
           (lit "Error converting PDF to images: cannot open broken document")
           eq_refl).
Defined.

(** X6.  The two failures of the document differ in their text: a text
    that is not base64 gives the decoder's error behind one prefix, a
    document that does not open gives the error of [fitz] behind the
    prefix of the conversion and that of the extraction. *)
Theorem document_errors_are_prefixed
    (w : World) (pdf_base64 key prompt e : str) :
  (b64decode w pdf_base64 = Raise e ->
     extract_data_with_direct_client w pdf_base64 key prompt
       = (JNull, Some (extraction_prefix ++ e))) /\
  (forall pdf_stream,
     b64decode w pdf_base64 = Ok pdf_stream ->
     fitz_open w pdf_stream = Raise e ->
     extract_data_with_direct_client w pdf_base64 key prompt
       = (JNull, Some (extraction_prefix ++ conversion_prefix ++ e))).
Proof.
  unfold extract_data_with_direct_client, pdf_to_images, pdf_to_images_run.
  split.
  - intros ->. reflexivity.
  - intros pdf_stream -> ->. reflexivity.
Qed.

Lemma document_errors_are_prefixed_witness :
  extract_data_with_direct_client
    (with_base64 broken_world) (lit "A") (lit "sk-0") (lit "rules")
  = (JNull,
     Some (lit "Error with direct Anthropic API call: Invalid base64-encoded string: number of data characters (1) cannot be 1 more than a multiple of 4"))
  /\
  extract_data_with_direct_client
    (with_base64 broken_world) (lit "JVBERg==") (lit "sk-0") (lit "rules")
  = (JNull,
     Some (lit "Error with direct Anthropic API call: Error converting PDF to images: cannot open broken document")).
Proof.
  split.
  - apply (proj1 (@document_errors_are_prefixed
                    (with_base64 broken_world) (lit "A") (lit "sk-0")
                    (lit "rules")
                    (lit "Invalid base64-encoded string: number of data characters (1) cannot be 1 more than a multiple of 4"))).
    vm_compute. reflexivity.
  - apply (proj2 (@document_errors_are_prefixed
                    (with_base64 broken_world) (lit "JVBERg==") (lit "sk-0")
                    (lit "rules") (lit "cannot open broken document"))
                 [37; 80; 68; 70]%N).
    + vm_compute. reflexivity.
    + reflexivity.
Defined.

(** X7.  The one request goes to the messages endpoint with the key in
    its header and the payload of the request builder; when the
    transport fails, or answers with a status other than 200, the
    extraction returns that failure as its error text. *)
Theorem http_failure_is_reported
    (w : World) (pdf_base64 key prompt : str) (images : list str) :
  pdf_to_images w pdf_base64 default_max_pages = Ok images ->
  (forall e,
     http_post w api_url (request_headers key) (request_payload prompt images)
       = Raise e ->
     extract_data_with_direct_client w pdf_base64 key prompt
       = (JNull, Some (extraction_prefix ++ e))) /\
  (forall response,
     http_post w api_url (request_headers key) (request_payload prompt images)
       = Ok response ->
     status_code response <> 200%Z ->
     extract_data_with_direct_client w pdf_base64 key prompt
       = (JNull, Some (extraction_prefix ++ status_error response))).
Proof.
  intros Hi. unfold extract_data_with_direct_client. rewrite Hi. cbn [bind].
  unfold create_message.
  change (base_url (new_client key) ++ lit "/messages") with api_url.
  change (headers (new_client key)) with (request_headers key).
  change (message_payload prompt (user_messages (build_content images))
            default_model default_max_tokens default_temperature)
    with (request_payload prompt images).
  split.
  - intros e ->. reflexivity.
  - intros response -> Hs. cbn [bind]. unfold check_status.
    destruct (Z.eqb_spec (status_code response) 200); [contradiction|].
    reflexivity.
Qed.

Lemma http_failure_is_reported_witness :
  extract_data_with_direct_client
    (sample_world 1 (answer 529 (lit "overloaded")))
    [] (lit "sk-0") (lit "rules")
  = (JNull,
     Some (lit "Error with direct Anthropic API call: API request failed with status 529: overloaded")).
Proof.
  apply (proj2 (@http_failure_is_reported
                  (sample_world 1 (answer 529 (lit "overloaded")))
                  [] (lit "sk-0") (lit "rules") [lit "page0"] eq_refl)
               (answer 529 (lit "overloaded")) eq_refl).
  discriminate.
Defined.

(** X8.  The result depends on the transport through the answer to that
    one request alone: two transports that agree on it give the same
    result. *)
Theorem one_request_decides
    (w : World) (pdf_base64 key prompt : str) (images : list str)
    (post1 post2 : str -> list (str * str) -> json -> exc Response) :
  pdf_to_images w pdf_base64 default_max_pages = Ok images ->
  post1 api_url (request_headers key) (request_payload prompt images)
    = post2 api_url (request_headers key) (request_payload prompt images) ->
  extract_data_with_direct_client (with_post w post1) pdf_base64 key prompt
  = extract_data_with_direct_client (with_post w post2) pdf_base64 key prompt.
Proof.
  intros Hi Hp. unfold extract_data_with_direct_client.
  rewrite !pdf_to_images_with_post, Hi. cbn [bind]. unfold create_message.
  change (base_url (new_client key) ++ lit "/messages") with api_url.
  change (headers (new_client key)) with (request_headers key).
  change (message_payload prompt (user_messages (build_content images))
            default_model default_max_tokens default_temperature)
    with (request_payload prompt images).
  cbn [http_post with_post]. now rewrite Hp.
Qed.

Lemma one_request_decides_witness :
  extract_data_with_direct_client
    (with_post (sample_world 1 (ok_response []))
               (fun url _ _ =>
                  if str_eqb url api_url then Ok (ok_response null_body)
                  else Raise (lit "no route")))
    [] (lit "sk-0") (lit "rules")
  = extract_data_with_direct_client
      (with_post (sample_world 1 (ok_response []))
                 (fun _ _ _ => Ok (ok_response null_body)))
      [] (lit "sk-0") (lit "rules").
Proof.
  apply (@one_request_decides
           (sample_world 1 (ok_response [])) [] (lit "sk-0") (lit "rules")
           [lit "page0"]
           (fun url _ _ =>
              if str_eqb url api_url then Ok (ok_response null_body)
              else Raise (lit "no route"))
           (fun _ _ _ => Ok (ok_response null_body))).
  - reflexivity.
  - reflexivity.
Defined.

(** ** The shape of the response *)

(** A world that has rendered one page and received the JSON text
    [body] with the status 200 has been answered with its value. *)
Lemma sample_answered (body : str) (response : json) :
  Json.loads sample_headroom body = Ok response ->
  answered (sample_world 1 (ok_response body)) [] (lit "sk-0") (lit "rules")
           response.
Proof. intros H. exists [lit "page0"]. split; [reflexivity|exact H]. Qed.

(** X9.  A response object without the key content, or whose content is
    empty, gives the fixed error text and no value. *)
Theorem response_without_content
    (w : World) (pdf_base64 key prompt : str)
    (members : list (str * json)) :
  answered w pdf_base64 key prompt (JDict members) ->
  dict_get members (lit "content") = None \/
  (exists content,
     dict_get members (lit "content") = Some content /\
     py_len content = Ok 0%Z) ->
  extract_data_with_direct_client w pdf_base64 key prompt
  = (JNull, Some (lit "No content in response")).
Proof.
  intros Ha H. rewrite (extract_answered Ha). unfold process_response.
  cbn [py_in py_getitem_str bind].
  destruct H as [->|(content & -> & Hl)]; [reflexivity|].
  cbn [bind]. rewrite Hl. reflexivity.
Qed.

Lemma response_without_content_witness :
  extract_data_with_direct_client
    (sample_world 1 (ok_response (lit "{}"))) [] (lit "sk-0") (lit "rules")
  = (JNull, Some (lit "No content in response")).
Proof.
  apply (@response_without_content
           (sample_world 1 (ok_response (lit "{}"))) [] (lit "sk-0")
           (lit "rules") []).
  - apply sample_answered. vm_compute. reflexivity.
  - left. reflexivity.
Defined.

(** X10.  A response that is not an object never gives a value: the
    extraction returns an error text, whatever the response holds. *)
Theorem response_not_an_object
    (w : World) (pdf_base64 key prompt : str) (response : json) :
  answered w pdf_base64 key prompt response ->
  (forall members, response <> JDict members) ->
  exists e,
    extract_data_with_direct_client w pdf_base64 key prompt = (JNull, Some e).
Proof.
  intros Ha H. rewrite (extract_answered Ha). unfold process_response.
  destruct response as [| | | | s|items|members];
    try (cbn; eexists; reflexivity).
  - cbn [py_in py_getitem_str bind].
    destruct (contains (lit "content") s); cbn [bind]; eexists; reflexivity.
  - cbn [py_in py_getitem_str bind].
    destruct (existsb _ items); cbn [bind]; eexists; reflexivity.
  - now destruct (H members).
Qed.

Lemma response_not_an_object_witness :
  exists e,
    extract_data_with_direct_client
      (sample_world 1 (ok_response (lit "null"))) [] (lit "sk-0") (lit "rules")
    = (JNull, Some e).
Proof.
  apply (@response_not_an_object
           (sample_world 1 (ok_response (lit "null"))) [] (lit "sk-0")
           (lit "rules") JNull).
  - apply sample_answered. vm_compute. reflexivity.
  - discriminate.
Defined.

(** X11.  When the first content element is an object without the key
    text, the error text is the name of the key in quotes behind the
    prefix, as [str] gives it for a [KeyError]. *)
Theorem first_element_without_text
    (w : World) (pdf_base64 key prompt : str)
    (members first : list (str * json)) (rest : list json) :
  answered w pdf_base64 key prompt (JDict members) ->
  dict_get members (lit "content") = Some (JList (JDict first :: rest)) ->
  dict_get first (lit "text") = None ->
  extract_data_with_direct_client w pdf_base64 key prompt
  = (JNull, Some (extraction_prefix ++ lit "'text'")).
Proof.
  intros Ha Hc Ht. rewrite (extract_answered Ha). unfold process_response.
  cbn [py_in py_getitem_str bind]. rewrite Hc. cbn [bind py_len].
  change (0 <? Z.of_nat (length (JDict first :: rest)))%Z with true.
  cbn [py_getitem_int]. unfold list_index. cbn [Z.ltb Z.compare].
  cbn [Z.to_nat nth_error bind py_getitem_str]. rewrite Ht. reflexivity.
Qed.

Lemma first_element_without_text_witness :
  extract_data_with_direct_client
    (sample_world 1
       (ok_response (lit "{" ++ quote ++ lit "content" ++ quote
                       ++ lit ":[{}]}")))
    [] (lit "sk-0") (lit "rules")
  = (JNull, Some (lit "Error with direct Anthropic API call: 'text'")).
Proof.
  apply (@first_element_without_text
           (sample_world 1
              (ok_response (lit "{" ++ quote ++ lit "content" ++ quote
                              ++ lit ":[{}]}")))
           [] (lit "sk-0") (lit "rules")
           [(lit "content", JList [JDict []])] [] []).
  - apply sample_answered. vm_compute. reflexivity.
  - reflexivity.
  - reflexivity.
Defined.

(** X12.  Of a response object whose content is a non-empty list, the
    text of the first element decides the result alone: what
    [json.loads] returns for the selected substring, or the text of the
    exception that it raises, behind the prefix.  The other elements
    and the other members of the response are not read. *)
Theorem first_text_decides
    (w : World) (pdf_base64 key prompt : str)
    (members : list (str * json)) (first : json) (rest : list json)
    (t : str) :
  answered w pdf_base64 key prompt (JDict members) ->
  dict_get members (lit "content") = Some (JList (first :: rest)) ->
  py_getitem_str first (lit "text") = Ok (JStr t) ->
  (forall v, Json.loads (headroom w) (strip (selected t)) = Ok v ->
     extract_data_with_direct_client w pdf_base64 key prompt = (v, None)) /\
  (forall e, Json.loads (headroom w) (strip (selected t)) = Raise e ->
     extract_data_with_direct_client w pdf_base64 key prompt
       = (JNull, Some (extraction_prefix ++ e))).
Proof.
  intros Ha Hc Ht. rewrite (extract_answered Ha). unfold process_response.
  cbn [py_in py_getitem_str bind]. rewrite Hc. cbn [bind py_len].
  change (0 <? Z.of_nat (length (first :: rest)))%Z with true.
  cbn [py_getitem_int]. unfold list_index. cbn [Z.ltb Z.compare].
  cbn [Z.to_nat nth_error bind]. rewrite Ht. cbn [bind].
  rewrite select_json_str_selected. cbn [bind]. split.
  - intros v ->. reflexivity.
  - intros e ->. reflexivity.
Qed.

Lemma first_text_decides_witness :
  extract_data_with_direct_client
    (sample_world 1
       (ok_response (body_of (lit "no fences {\" ++ quote ++ lit "a\"
                                ++ quote ++ lit ":1}"))))
    [] (lit "sk-0") (lit "rules")
  = (JNull,
     Some (lit "Error with direct Anthropic API call: Expecting value: line 1 column 1 (char 0)")).
Proof.
  apply (proj2 (@first_text_decides
                  (sample_world 1
                     (ok_response (body_of (lit "no fences {\" ++ quote
                                              ++ lit "a\" ++ quote
                                              ++ lit ":1}"))))
                  [] (lit "sk-0") (lit "rules")
                  [(lit "content",
                    JList [JDict [(lit "type", JStr (lit "text"));
                                  (lit "text",
                                   JStr (lit "no fences {" ++ quote ++ lit "a"
                                           ++ quote ++ lit ":1}"))]])]
                  (JDict [(lit "type", JStr (lit "text"));
                          (lit "text",
                           JStr (lit "no fences {" ++ quote ++ lit "a"
                                   ++ quote ++ lit ":1}"))])
                  []
                  (lit "no fences {" ++ quote ++ lit "a" ++ quote ++ lit ":1}")
                  ltac:(apply sample_answered; vm_compute; reflexivity)
                  eq_refl eq_refl)
               (lit "Expecting value: line 1 column 1 (char 0)")).
  vm_compute. reflexivity.
Defined.

(** X13.  A text member that is not a string never gives a value: the
    membership test or the string method fails, and the extraction
    returns the error text. *)
Theorem text_that_is_no_string
    (w : World) (pdf_base64 key prompt : str)
    (members : list (str * json)) (first : json) (rest : list json)
    (text_value : json) :
  answered w pdf_base64 key prompt (JDict members) ->
  dict_get members (lit "content") = Some (JList (first :: rest)) ->
  py_getitem_str first (lit "text") = Ok text_value ->
  (forall t, text_value <> JStr t) ->
  exists e,
    extract_data_with_direct_client w pdf_base64 key prompt
    = (JNull, Some (extraction_prefix ++ e)).
Proof.
  intros Ha Hc Ht Hn. rewrite (extract_answered Ha). unfold process_response.
  cbn [py_in py_getitem_str bind]. rewrite Hc. cbn [bind py_len].
  change (0 <? Z.of_nat (length (first :: rest)))%Z with true.
  cbn [py_getitem_int]. unfold list_index. cbn [Z.ltb Z.compare].
  cbn [Z.to_nat nth_error bind]. rewrite Ht. cbn [bind].
  unfold select_json_str.
  destruct text_value as [| | | | t|items|fields];
    try (cbn; eexists; reflexivity).
  - now destruct (Hn t).
  - cbn [py_in bind].
    repeat match goal with
           | |- context [if ?b then _ else _] => destruct b; cbn [py_in bind]
           end; cbn; eexists; reflexivity.
  - cbn [py_in bind].
    repeat match goal with
           | |- context [if ?b then _ else _] => destruct b; cbn [py_in bind]
           | |- context [match ?o with Some _ => _ | None => _ end] =>
               destruct o; cbn [py_in bind]
           end; cbn; eexists; reflexivity.
Qed.

Lemma text_that_is_no_string_witness :
  exists e,
    extract_data_with_direct_client
      (sample_world 1
         (ok_response (lit "{" ++ quote ++ lit "content" ++ quote ++ lit ":[{"
                         ++ quote ++ lit "text" ++ quote ++ lit ":null}]}")))
      [] (lit "sk-0") (lit "rules")
    = (JNull, Some (extraction_prefix ++ e)).
Proof.
  apply (@text_that_is_no_string
           (sample_world 1
              (ok_response (lit "{" ++ quote ++ lit "content" ++ quote
                              ++ lit ":[{" ++ quote ++ lit "text" ++ quote
                              ++ lit ":null}]}")))
           [] (lit "sk-0") (lit "rules")
           [(lit "content", JList [JDict [(lit "text", JNull)]])]
           (JDict [(lit "text", JNull)]) [] JNull).
  - apply sample_answered. vm_compute. reflexivity.
  - reflexivity.
  - reflexivity.
  - discriminate.
Defined.

(** ** Prose around a fenced block *)

(** A prefix without the first character of the separator is passed
    over. *)
Lemma partition_skip (b : char) (sep' u v : str) :
  Forall (fun c => c <> b) u ->
  partition (u ++ v) (b :: sep') =
  match partition v (b :: sep') with
  | Some (x, y) => Some (u ++ x, y)
  | None => None
  end.
Proof.
  induction 1 as [|c u Hc _ IH]; simpl app.
  - destruct (partition v (b :: sep')) as [[x y]|]; reflexivity.
  - cbn [partition startswith].
    destruct (N.eqb_spec b c) as [E|_]; [now destruct Hc|].
    cbn [andb]. rewrite IH.
    destruct (partition v (b :: sep')) as [[x y]|]; reflexivity.
Qed.

Lemma partition_plain (b : char) (sep' u : str) :
  Forall (fun c => c <> b) u -> partition u (b :: sep') = None.
Proof.
  intros H. rewrite <- (app_nil_r u), (partition_skip sep' [] H). reflexivity.
Qed.

Lemma partition_at (b : char) (sep' u v : str) :
  Forall (fun c => c <> b) u ->
  partition (u ++ (b :: sep') ++ v) (b :: sep') = Some (u, v).
Proof.
  intros H. rewrite (partition_skip sep' _ H).
  assert (partition ((b :: sep') ++ v) (b :: sep') = Some ([], v)) as ->.
  { apply leftmost_partition. split; [reflexivity|]. intros; simpl; lia. }
  now rewrite app_nil_r.
Qed.

Lemma startswith_json_then_backquote (j x : str) :
  startswith j (lit "json") = false ->
  startswith (j ++ backquote :: x) (lit "json") = false.
Proof.
  intros H. destruct j as [|a [|b [|c [|d j]]]]; cbn in H |- *;
    repeat match goal with
           | |- context [N.eqb ?m ?n] => destruct (N.eqb m n); cbn in H |- *
           end; congruence.
Qed.

(** The JSON-marked fence in a closing fence and what follows it. *)
Lemma partition_closing_fence (post : str) :
  plain post ->
  partition (fence ++ post) fence_json =
  if startswith post (lit "json") then Some ([], skipn 4 post) else None.
Proof.
  intros Hp. change fence with [backquote; backquote; backquote].
  change fence_json with ([backquote; backquote; backquote] ++ lit "json").
  cbn [app]. cbn [partition startswith]. rewrite !N.eqb_refl. cbn [andb].
  change (startswith post (96 :: 96 :: 96 :: lit "json"))%N
    with (startswith post fence_json).
  destruct (startswith post (lit "json")) eqn:E; [reflexivity|].
  assert (partition post (backquote :: backquote :: backquote :: lit "json")
          = None) as Hn by (apply (partition_plain _ Hp)).
  rewrite Hn. destruct post as [|c post]; [reflexivity|].
  inversion Hp as [|? ? Hc Hp']; subst.
  destruct (N.eqb_spec backquote c) as [E1|_]; [now destruct Hc|].
  reflexivity.
Qed.

Lemma before_closing_fence (j post : str) :
  plain j -> plain post ->
  before (before (j ++ fence ++ post) fence_json) fence = j.
Proof.
  intros Hj Hp. unfold before at 2.
  change fence_json with (backquote :: lit "``json").
  rewrite (partition_skip _ _ Hj).
  change (backquote :: lit "``json") with fence_json.
  rewrite (partition_closing_fence Hp).
  destruct (startswith post (lit "json")).
  - rewrite app_nil_r. unfold before.
    change fence with (backquote :: lit "``").
    now rewrite (partition_plain _ Hj).
  - unfold before. change fence with (backquote :: lit "``").
    now rewrite (partition_at _ _ Hj).
Qed.

Lemma no_marker_between_plain_fences (j post : str) :
  plain j -> plain post ->
  startswith j (lit "json") = false ->
  startswith post (lit "json") = false ->
  partition (fence ++ j ++ fence ++ post) fence_json = None.
Proof.
  intros Hj Hp Sj Sp.
  assert (partition (j ++ fence ++ post) fence_json = None) as Hrest.
  { change fence_json with (backquote :: lit "``json").
    rewrite (partition_skip _ _ Hj).
    change (backquote :: lit "``json") with fence_json.
    now rewrite (partition_closing_fence Hp), Sp. }
  pose proof (@startswith_json_then_backquote
                j (backquote :: backquote :: post) Sj) as S0.
  change fence with [backquote; backquote; backquote] in *.
  change fence_json with ([backquote; backquote; backquote] ++ lit "json") in *.
  cbn [app] in *. cbn [partition startswith]. rewrite !N.eqb_refl. cbn [andb].
  rewrite S0, Hrest.
  destruct j as [|a j].
  - reflexivity.
  - inversion Hj as [|? ? Ha Hj']; subst. cbn [app].
    destruct (N.eqb_spec backquote a) as [E|_]; [now destruct Ha|].
    reflexivity.
Qed.

(** X14.  Prose without backquotes before and after a fenced block is
    ignored: the block fenced with the language marker, the block fenced
    without it, and the bare text all give the same trimmed text. *)
Theorem prose_around_block_is_ignored (pre j post : str) :
  plain pre -> plain j -> plain post ->
  select_json_str (JStr (pre ++ fence_json ++ j ++ fence ++ post))
    = Ok (strip j) /\
  (startswith j (lit "json") = false ->
   startswith post (lit "json") = false ->
   select_json_str (JStr (pre ++ fence ++ j ++ fence ++ post))
     = Ok (strip j)) /\
  select_json_str (JStr j) = Ok (strip j).
Proof.
  intros Hpre Hj Hpost. rewrite !select_json_str_selected. split; [|split].
  - unfold selected.
    assert (partition (pre ++ fence_json ++ j ++ fence ++ post) fence_json
            = Some (pre, j ++ fence ++ post)) as P
      by (apply (partition_at _ _ Hpre)).
    rewrite contains_partition, P. unfold after. rewrite P.
    now rewrite before_closing_fence.
  - intros Sj Sp. unfold selected.
    assert (partition (pre ++ fence ++ j ++ fence ++ post) fence_json = None)
      as Pj.
    { change fence_json with (backquote :: lit "``json").
      rewrite (partition_skip _ _ Hpre).
      change (backquote :: lit "``json") with fence_json.
      now rewrite no_marker_between_plain_fences. }
    assert (partition (pre ++ fence ++ j ++ fence ++ post) fence
            = Some (pre, j ++ fence ++ post)) as Pf
      by (apply (partition_at _ _ Hpre)).
    rewrite !contains_partition, Pj, Pf. unfold after. rewrite Pf.
    unfold before. change fence with (backquote :: lit "``").
    now rewrite (partition_at _ _ Hj).
  - unfold selected. rewrite !contains_partition.
    change fence_json with (backquote :: lit "``json").
    change fence with (backquote :: lit "``").
    now rewrite !(partition_plain _ Hj).
Qed.

Lemma prose_around_block_is_ignored_witness :
  select_json_str
    (JStr (lit "Here it is: " ++ fence_json ++ lit " [1] " ++ fence
             ++ lit " Done."))
    = Ok (lit "[1]") /\
  select_json_str
    (JStr (lit "Here it is: " ++ fence ++ lit " [1] " ++ fence ++ lit " Done."))
    = Ok (lit "[1]").
Proof.
  pose proof (@prose_around_block_is_ignored
                (lit "Here it is: ") (lit " [1] ") (lit " Done.")
                ltac:(repeat constructor; discriminate)
                ltac:(repeat constructor; discriminate)
                ltac:(repeat constructor; discriminate)) as (H1 & H2 & _).
  split; [exact H1|].
  apply H2; reflexivity.
Defined.

(** ** The substring that is parsed *)

Lemma lstrip_split (s : str) :
  exists a, s = a ++ lstrip s /\ Forall (fun c => isspace c = true) a.
Proof.
  induction s as [|c s (a & E & Ha)]; simpl.
  - exists []. split; [reflexivity|constructor].
  - destruct (isspace c) eqn:Hc.
    + exists (c :: a). split; [simpl; now f_equal|now constructor].
    + exists []. split; [reflexivity|constructor].
Qed.

Lemma lstrip_head (s r : str) (c : char) :
  lstrip s = c :: r -> isspace c = false.
Proof.
  induction s as [|d s IH]; simpl; [discriminate|].
  destruct (isspace d) eqn:Hd; [exact IH|].
  intros E. injection E as <- _. exact Hd.
Qed.

Lemma rstrip_split (s : str) :
  exists b, s = rstrip s ++ b /\ Forall (fun c => isspace c = true) b.
Proof.
  unfold rstrip. destruct (lstrip_split (rev s)) as (a & E & Ha).
  exists (rev a). split.
  - rewrite <- rev_app_distr, <- E. now rewrite rev_involutive.
  - now apply Forall_rev.
Qed.

Lemma strip_split (s : str) :
  exists a b, s = a ++ strip s ++ b /\
              Forall (fun c => isspace c = true) a /\
              Forall (fun c => isspace c = true) b.
Proof.
  unfold strip. destruct (lstrip_split s) as (a & Ea & Ha).
  destruct (rstrip_split (lstrip s)) as (b & Eb & Hb).
  exists a, b. split; [|split; assumption]. now rewrite <- Eb.
Qed.

Lemma strip_ends (s : str) :
  (forall c r, strip s = c :: r -> isspace c = false) /\
  (forall c r, strip s = r ++ [c] -> isspace c = false).
Proof.
  split; intros c r E.
  - destruct (rstrip_split (lstrip s)) as (b & Eb & _).
    unfold strip in E. rewrite E in Eb. simpl in Eb.
    now apply lstrip_head in Eb.
  - unfold strip, rstrip in E.
    assert (lstrip (rev (lstrip s)) = c :: rev r) as E'.
    { rewrite <- (rev_involutive (lstrip (rev (lstrip s)))), E, rev_app_distr.
      reflexivity. }
    now apply lstrip_head in E'.
Qed.

Lemma after_split (s sep : str) :
  contains sep s = true -> exists head, s = head ++ after s sep.
Proof.
  rewrite contains_partition. unfold after.
  destruct (partition s sep) as [[b a]|] eqn:P; [|discriminate].
  intros _. exists (b ++ sep). apply partition_app in P.
  now rewrite <- app_assoc.
Qed.

Lemma selected_split (t : str) : exists a b, t = a ++ selected t ++ b.
Proof.
  unfold selected. destruct (contains fence_json t) eqn:Cj.
  - destruct (after_split _ _ Cj) as [head Eh].
    destruct (before_split (after t fence_json) fence_json) as [t1 E1].
    destruct (before_split (before (after t fence_json) fence_json) fence)
      as [t2 E2].
    exists head, (t2 ++ t1).
    set (x := before (before (after t fence_json) fence_json) fence) in *.
    set (y := before (after t fence_json) fence_json) in *.
    set (z := after t fence_json) in *.
    rewrite Eh, E1, E2. now rewrite <- app_assoc.
  - destruct (contains fence t) eqn:Cf.
    + destruct (after_split _ _ Cf) as [head Eh].
      destruct (before_split (after t fence) fence) as [t1 E1].
      exists head, t1.
      set (x := before (after t fence) fence) in *.
      set (z := after t fence) in *.
      now rewrite Eh, E1.
    + exists [], []. now rewrite app_nil_r.
Qed.

(** X15.  For a reply that is a string the selection never fails, and
    the text it hands to the decoder is a part of the reply, unchanged,
    that neither begins nor ends with white space. *)
Theorem parsed_text_is_a_trimmed_part (t : str) :
  exists s a b,
    select_json_str (JStr t) = Ok s /\
    t = a ++ s ++ b /\
    (forall c r, s = c :: r -> isspace c = false) /\
    (forall c r, s = r ++ [c] -> isspace c = false).
Proof.
  destruct (selected_split t) as (a & b & E).
  destruct (strip_split (selected t)) as (a' & b' & E' & _ & _).
  exists (strip (selected t)), (a ++ a'), (b' ++ b).
  split; [apply select_json_str_selected|]. split.
  - rewrite E at 1. rewrite E' at 1. now rewrite <- !app_assoc.
  - apply strip_ends.
Qed.

(** ** The page *)


Lemma extraction_shape (w : World) (pdf_base64 key prompt : str) :
  (exists v, extract_data_with_direct_client w pdf_base64 key prompt = (v, None))
  \/
  (exists c e,
     extract_data_with_direct_client w pdf_base64 key prompt
     = (JNull, Some (c :: e))).
Proof.
  unfold extract_data_with_direct_client.
  destruct (pdf_to_images w pdf_base64 default_max_pages) as [images|e];
    cbn [bind]; [|right; cbn; eauto].
  destruct (create_message _ _ _ _ _ _ _) as [response|e];
    cbn [bind]; [|right; cbn; eauto].
  pose proof (process_response_shape (headroom w) response) as H.
  destruct (process_response (headroom w) response) as [[v [e|]]|e].
  - destruct H as [-> ->]. right. cbn. eauto.
  - left. now exists v.
  - right. cbn. eauto.
Qed.

Lemma prompt_for_mode (pdf_data extraction_mode : str) :
  create_extraction_prompt pdf_data
    (JStr (if str_eqb extraction_mode (lit "Advanced (All Fields)")
           then lit "advanced" else lit "basic"))
  = prompt_for extraction_mode.
Proof.
  unfold prompt_for. destruct (str_eqb _ _); reflexivity.
Qed.

Lemma on_extract_run (ui : Ui) (w : World) (c : char)
    (key extraction_mode pdf_base64 : str) (file_bytes : bytes) :
  get_pdf_as_base64 ui file_bytes = Ok pdf_base64 ->
  on_extract ui w (c :: key) extraction_mode file_bytes
  = match extract_data_with_direct_client w pdf_base64 (c :: key)
            (prompt_for extraction_mode) with
    | (_, Some (d :: e)) => ([st_error (d :: e)], None)
    | (extracted_data, _) => show_result ui extracted_data
    end.
Proof.
  intros Hf. unfold on_extract. rewrite Hf. unfold extract_po_data.
  rewrite prompt_for_mode.
  destruct (extract_data_with_direct_client _ _ _ _) as [v [[|d e]|]];
    reflexivity.
Qed.

(** X16.  Without a key the page shows the one message that asks for it
    and nothing of the extraction is run.  With a key, the extraction
    runs with the instruction of the chosen mode, and the page shows
    either its error text as the single widget, or the result of an
    extraction that reported no error. *)
Theorem page_shows_error_or_result
    (ui : Ui) (w : World) (extraction_mode : str) (file_bytes : bytes) :
  on_extract ui w [] extraction_mode file_bytes
    = ([st_error missing_key_message], None) /\
  (forall c key pdf_base64,
     get_pdf_as_base64 ui file_bytes = Ok pdf_base64 ->
     (exists e,
        extract_data_with_direct_client w pdf_base64 (c :: key)
          (prompt_for extraction_mode) = (JNull, Some e) /\
        on_extract ui w (c :: key) extraction_mode file_bytes
          = ([st_error e], None))
     \/
     (exists v,
        extract_data_with_direct_client w pdf_base64 (c :: key)
          (prompt_for extraction_mode) = (v, None) /\
        on_extract ui w (c :: key) extraction_mode file_bytes
          = show_result ui v)).
Proof.
  split; [reflexivity|]. intros c key pdf_base64 Hf.
  rewrite (@on_extract_run ui w c key extraction_mode _ _ Hf).
  destruct (extraction_shape w pdf_base64 (c :: key) (prompt_for extraction_mode))
    as [(v & ->)|(d & e & ->)].
  - right. now exists v.
  - left. now exists (d :: e).
Qed.

Lemma page_shows_error_or_result_witness :
  (exists e,
     extract_data_with_direct_client broken_world (lit "JVBERg==") (lit "sk-0")
       (prompt_for (lit "Basic (Standard Fields)")) = (JNull, Some e) /\
     on_extract sample_ui broken_world (lit "sk-0")
       (lit "Basic (Standard Fields)") [37; 80; 68; 70]%N
       = ([st_error e], None))
  \/
  (exists v,
     extract_data_with_direct_client broken_world (lit "JVBERg==") (lit "sk-0")
       (prompt_for (lit "Basic (Standard Fields)")) = (v, None) /\
     on_extract sample_ui broken_world (lit "sk-0")
       (lit "Basic (Standard Fields)") [37; 80; 68; 70]%N
       = show_result sample_ui v).
Proof.
  apply (proj2 (@page_shows_error_or_result
                  sample_ui broken_world (lit "Basic (Standard Fields)")
                  [37; 80; 68; 70]%N)
               115%N (lit "k-0") (lit "JVBERg==")).
  vm_compute. reflexivity.
Defined.







(** ** An answer that is not JSON *)

(** X20.  When the transport answers with the status 200 and
    [response.json()] raises, as it does for a body that is not JSON,
    the extraction returns the text of that exception behind its
    prefix, and no value. *)
Theorem answer_that_is_no_json
    (w : World) (pdf_base64 key prompt : str) (images : list str)
    (response : Response) (e : str) :
  pdf_to_images w pdf_base64 default_max_pages = Ok images ->
  http_post w api_url (request_headers key) (request_payload prompt images)
    = Ok response ->
  status_code response = 200%Z ->
  response_json response = Raise e ->
  extract_data_with_direct_client w pdf_base64 key prompt
    = (JNull, Some (extraction_prefix ++ e)).
Proof.
  intros Hi Hp Hs He.
  unfold extract_data_with_direct_client. rewrite Hi. cbn [bind].
  unfold create_message.
  change (base_url (new_client key) ++ lit "/messages") with api_url.
  change (headers (new_client key)) with (request_headers key).
  change (message_payload prompt (user_messages (build_content images))
            default_model default_max_tokens default_temperature)
    with (request_payload prompt images).
  rewrite Hp. cbn [bind]. unfold check_status.
  rewrite Hs. cbn [Z.eqb Pos.eqb negb bind].
  now rewrite He.
Qed.

Lemma answer_that_is_no_json_witness :
  extract_data_with_direct_client
    (sample_world 1 (ok_response (lit "<html>"))) [] (lit "sk-0") (lit "rules")
    = (JNull,
       Some (lit "Error with direct Anthropic API call: Expecting value: line 1 column 1 (char 0)")).
Proof.
  apply (@answer_that_is_no_json
           (sample_world 1 (ok_response (lit "<html>"))) [] (lit "sk-0")
           (lit "rules") [lit "page0"] (ok_response (lit "<html>"))
           (lit "Expecting value: line 1 column 1 (char 0)")).
  - reflexivity.
  - reflexivity.
  - reflexivity.
  - vm_compute. reflexivity.
Defined.

(** Runs of the two functions of [base64], with the results of CPython. *)
Example base64_run :
  Base64.b64encode [] = [] /\
  Base64.b64encode [102]%N = (lit "Zg==") /\
  Base64.b64encode [102; 111]%N = (lit "Zm8=") /\
  Base64.b64encode [102; 111; 111]%N = (lit "Zm9v") /\
  Base64.b64encode [102; 111; 111; 98]%N = (lit "Zm9vYg==") /\
  Base64.b64encode [37; 80; 68; 70; 45; 49; 46; 52; 10]%N = (lit "JVBERi0xLjQK") /\
  Base64.b64encode [0; 255; 128; 7]%N = (lit "AP+ABw==") /\
  Base64.b64encode [251; 239; 190]%N = (lit "++++") /\
  Base64.b64decode [] = Ok [] /\
  Base64.b64decode (lit "Zm9v") = Ok [102; 111; 111]%N /\
  Base64.b64decode (lit "Zm8=") = Ok [102; 111]%N /\
  Base64.b64decode (lit "Zg==") = Ok [102]%N /\
  Base64.b64decode (lit "Zg") = Raise (lit "Incorrect padding") /\
  Base64.b64decode (lit "Z") = Raise (lit "Invalid base64-encoded string: number of data characters (1) cannot be 1 more than a multiple of 4") /\
  Base64.b64decode (lit "Zm9vY") = Raise (lit "Invalid base64-encoded string: number of data characters (5) cannot be 1 more than a multiple of 4") /\
  Base64.b64decode (lit "Zm 9v" ++ [10%N]) = Ok [102; 111; 111]%N /\
  Base64.b64decode (lit "Zg==Zm9v") = Ok [102]%N /\
  Base64.b64decode (lit "Zg=") = Raise (lit "Incorrect padding") /\
  Base64.b64decode (lit "=Zg==") = Ok [102]%N /\
  Base64.b64decode (lit "Zm9v====") = Ok [102; 111; 111]%N /\
  Base64.b64decode (lit "Z-m_9v") = Ok [102; 111; 111]%N /\
  Base64.b64decode (lit "Zg=x=") = Ok [102; 12]%N /\
  Base64.b64decode (lit "+/+/") = Ok [251; 255; 191]%N /\
  Base64.b64decode (lit "Z" ++ [233%N]) = Raise (lit "string argument should contain only ASCII characters").
Proof. repeat split; vm_compute; reflexivity. Qed.
